(** * MiniTwit: the store, the query layer and the request handlers

    A shallow embedding of [minitwit.py].  The relational store is a record
    of three tables, each a list of rows in scan order.  Every literal SQL
    string of the source is a constructor of [query] (reads) or [statement]
    (writes) with the bound parameters as arguments; [run_query] and
    [run_statement] give their meaning.  The view functions are written in a
    small state-and-exception monad over the per-request world (the
    connection [g.db], [g.user], the signed-cookie session and a trace of
    the calls made to the collaborators).

    Not modelled: HTML rendering, the Prometheus counters and gauges (they
    only observe) and URL routing.  Identifiers and timestamps come from
    the store and the clock and are taken to be integers the store can
    hold; the page number comes from the client and is checked against the
    signed 64-bit range when it is bound to a statement. *)

From Stdlib Require Import Ascii String.
From stdpp Require Import base list strings gmap sorting.

Local Open Scope Z_scope.

(** ** The store *)

(** Modelled from the spec: [schema.sql] is missing.  A user has a unique
    numeric identifier, a username, an email and a password hash; a message
    has a numeric identifier, an author id, a text body, a publication
    timestamp in seconds and a flagged marker; a follow edge is an ordered
    pair of ids.  The column names are those the statements of
    [minitwit.py] use. *)
Record user := User {
  user_id : Z;
  username : string;
  email : string;
  pw_hash : string;
}.

Record message := Message {
  message_id : Z;
  author_id : Z;
  text : string;
  pub_date : Z;
  flagged : Z;
}.

Record follower := Follower {
  who_id : Z;
  whom_id : Z;
}.

Record database := Database {
  user_table : list user;
  follower_table : list follower;
  message_table : list message;
}.

(** A row of [select message.*, user.* from message, user]. *)
Definition row : Type := message * user.

#[export] Instance user_eq_dec : EqDecision user.
Proof. solve_decision. Defined.
#[export] Instance message_eq_dec : EqDecision message.
Proof. solve_decision. Defined.
#[export] Instance follower_eq_dec : EqDecision follower.
Proof. solve_decision. Defined.

(** Modelled from the spec: [schema.sql] is missing.  The store assigns the
    numeric identifier of a new row: one more than the largest identifier
    in the table, starting from 1. *)
Definition next_rowid (ids : list Z) : Z := 1 + foldr Z.max 0 ids.

(** ** The query layer *)

(** [order by message.pub_date desc]: later rows are not more recent. *)
Definition pub_date_desc (r1 r2 : row) : Prop := pub_date r2.1 ≤ pub_date r1.1.

#[export] Instance pub_date_desc_dec : RelDecision pub_date_desc :=
  λ r1 r2, decide (pub_date r2.1 ≤ pub_date r1.1).
#[export] Instance pub_date_desc_trans : Transitive pub_date_desc.
Proof. unfold pub_date_desc. intros x y z ??. lia. Qed.
#[export] Instance pub_date_desc_total : Total pub_date_desc.
Proof. unfold pub_date_desc. intros x y. lia. Qed.

(** The storage engine sorts the selected rows; the source fixes no order
    among rows of equal [pub_date], so the engine is any function that
    returns its input rearranged and sorted. *)
Class SqlEngine := {
  order_by_pub_date_desc : list row → list row;
  order_by_perm l : order_by_pub_date_desc l ≡ₚ l;
  order_by_sorted l : StronglySorted pub_date_desc (order_by_pub_date_desc l);
}.

(** One engine: merge sort. *)
Definition merge_sort_engine : SqlEngine := {|
  order_by_pub_date_desc := merge_sort pub_date_desc;
  order_by_perm := merge_sort_Permutation pub_date_desc;
  order_by_sorted := StronglySorted_merge_sort pub_date_desc;
|}.

(** [limit ? offset ?]: a negative offset counts as zero, a negative limit
    as no limit. *)
Definition limit_offset {A} (limit offset : Z) (l : list A) : list A :=
  let rest := drop (Z.to_nat offset) l in
  if limit <? 0 then rest else take (Z.to_nat limit) rest.

(** [from message, user]: every message paired with every user. *)
Definition cross_join (db : database) : list row :=
  m ← message_table db; u ← user_table db; [(m, u)].

(** [select 1 from follower where follower.who_id = ? and
    follower.whom_id = ?], as a row predicate. *)
Definition follower_matches (who whom : Z) (f : follower) : bool :=
  (who_id f =? who) && (whom_id f =? whom).

(** [select whom_id from follower where who_id = ?] *)
Definition whom_ids_of (db : database) (who : Z) : list Z :=
  whom_id <$> List.filter (λ f, who_id f =? who) (follower_table db).

(** The [where] clauses of the three timeline queries. *)
Definition where_home (db : database) (uid1 uid2 : Z) (r : row) : bool :=
  (flagged r.1 =? 0) && (author_id r.1 =? user_id r.2) &&
  ((user_id r.2 =? uid1) || existsb (Z.eqb (user_id r.2)) (whom_ids_of db uid2)).

Definition where_public (r : row) : bool :=
  (flagged r.1 =? 0) && (author_id r.1 =? user_id r.2).

Definition where_profile (uid : Z) (r : row) : bool :=
  (flagged r.1 =? 0) && (user_id r.2 =? author_id r.1) && (user_id r.2 =? uid).

(** The reads of the source, indexed by the type of the rows they return. *)
Inductive query : Type → Type :=
  | SelectUserById (uid : Z) : query user
      (* select * from user where user_id = ? *)
  | SelectUserByName (name : string) : query user
      (* select * from user where username = ? *)
  | SelectUserIdByName (name : string) : query Z
      (* select user_id from user where username = ? *)
  | SelectFollows (who whom : Z) : query Z
      (* select 1 from follower where who_id = ? and whom_id = ? *)
  | SelectHome (uid1 uid2 limit offset : Z) : query row
  | SelectPublic (limit offset : Z) : query row
  | SelectProfile (uid limit offset : Z) : query row.

(** The writes of the source. *)
Inductive statement :=
  | InsertFollower (who whom : Z)
      (* insert into follower (who_id, whom_id) values (?, ?) *)
  | DeleteFollower (who whom : Z)
      (* delete from follower where who_id=? and whom_id=? *)
  | InsertMessage (author : Z) (body : string) (date : Z)
      (* insert into message (author_id, text, pub_date, flagged)
         values (?, ?, ?, 0) *)
  | InsertUser (name mail hash : string).
      (* insert into user (username, email, pw_hash) values (?, ?, ?) *)

Definition run_query `{SqlEngine} {A} (q : query A) (db : database) : list A :=
  match q with
  | SelectUserById uid =>
      List.filter (λ u, user_id u =? uid) (user_table db)
  | SelectUserByName name =>
      List.filter (λ u, String.eqb (username u) name) (user_table db)
  | SelectUserIdByName name =>
      user_id <$> List.filter (λ u, String.eqb (username u) name) (user_table db)
  | SelectFollows who whom =>
      (λ _, 1) <$> List.filter (follower_matches who whom) (follower_table db)
  | SelectHome uid1 uid2 limit offset =>
      limit_offset limit offset
        (order_by_pub_date_desc (List.filter (where_home db uid1 uid2) (cross_join db)))
  | SelectPublic limit offset =>
      limit_offset limit offset
        (order_by_pub_date_desc (List.filter where_public (cross_join db)))
  | SelectProfile uid limit offset =>
      limit_offset limit offset
        (order_by_pub_date_desc (List.filter (where_profile uid) (cross_join db)))
  end.

Definition run_statement (s : statement) (db : database) : database :=
  match s with
  | InsertFollower who whom =>
      {| user_table := user_table db;
         follower_table := follower_table db ++ [Follower who whom];
         message_table := message_table db |}
  | DeleteFollower who whom =>
      {| user_table := user_table db;
         follower_table :=
           List.filter (λ f, negb (follower_matches who whom f)) (follower_table db);
         message_table := message_table db |}
  | InsertMessage author body date =>
      {| user_table := user_table db;
         follower_table := follower_table db;
         message_table :=
           message_table db ++
           [Message (next_rowid (message_id <$> message_table db)) author body date 0] |}
  | InsertUser name mail hash =>
      {| user_table :=
           user_table db ++
           [User (next_rowid (user_id <$> user_table db)) name mail hash];
         follower_table := follower_table db;
         message_table := message_table db |}
  end.

(** ** The request context *)

Inductive http_method := GET | HEAD | POST.

(** What a view function reads from the incoming request: the method,
    [request.form], the value of [request.args.get("p", type=int)] when the
    parameter is present and an integer, and the reading [int(time.time())]
    of the clock. *)
Record request := Request {
  req_method : http_method;
  req_form : gmap string string;
  req_page : option Z;
  req_time : Z;
}.

(** The signed-cookie session: the key ["user_id"] and the messages queued
    by [flash]. *)
Record session := Session {
  session_user_id : option Z;
  session_flashes : list string;
}.

(** The targets of [url_for]. *)
Inductive endpoint :=
  | EpTimeline
  | EpPublicTimeline
  | EpUserTimeline (name : string)
  | EpLogin.

(** The exceptions a view can raise besides [abort]: a form key that is
    missing ([request.form[key]]), a session key that is missing, and an
    integer that does not fit a statement parameter. *)
Inductive exception :=
  | BadRequestKeyError (key : string)
  | KeyError (key : string)
  | OverflowError.

(** What a view function answers: a redirect, one of the three rendered
    templates with its context, or the HTTP error status of [abort]; or
    the request ends with an exception that nothing handles. *)
Inductive response :=
  | Redirect (target : endpoint)
  | RenderTimeline (messages : list row) (followed : option bool)
      (profile_user : option user)
  | RenderLogin (error : option string)
  | RenderRegister (error : option string)
  | Abort (status : Z)
  | Unhandled (e : exception).

(** The password helper of werkzeug. *)
Class Werkzeug := {
  generate_password_hash : string → string;
  check_password_hash : string → string → bool;
}.

Definition plain_werkzeug : Werkzeug := {|
  generate_password_hash password := "#" +:+ password;
  check_password_hash hash password := String.eqb hash ("#" +:+ password);
|}.

(** Calls made to the collaborators while a request is handled. *)
Inductive event :=
  | Queried {A} (q : query A)
  | Executed (s : statement)
  | Committed
  | PasswordChecked (hash password : string)
  | PasswordHashed (password : string).

(** The state a request runs against: the store behind [g.db], the
    session, [g.user], and the calls made so far (latest last).  Every
    [execute] of the source is followed by [commit] before anything can
    raise, so a write goes to the store at once. *)
Record world := World {
  db : database;
  sess : session;
  g_user : option user;
  trace : list event;
}.

(** A view either returns a value, raises the HTTP error of [abort], or
    fails with an exception. *)
Inductive outcome (A : Type) :=
  | Done (a : A)
  | Raised (status : Z)
  | Failed (e : exception).
Arguments Done {A} a.
Arguments Raised {A} status.
Arguments Failed {A} e.

Definition handler (A : Type) : Type := world → outcome A * world.

Definition ret {A} (a : A) : handler A := λ w, (Done a, w).

Definition bind {A B} (m : handler A) (k : A → handler B) : handler B :=
  λ w, match m w with
       | (Done a, w') => k a w'
       | (Raised status, w') => (Raised status, w')
       | (Failed e, w') => (Failed e, w')
       end.

Notation "'let*' x ':=' m 'in' k" := (bind m (λ x, k))
  (at level 10, x name, m at level 200, k at level 200).
Notation "m ';;' k" := (bind m (λ _, k))
  (at level 100, k at level 200, right associativity).

(** [abort(status)] *)
Definition abort {A} (status : Z) : handler A := λ w, (Raised status, w).

Definition log (e : event) (w : world) : world :=
  {| db := db w; sess := sess w; g_user := g_user w; trace := trace w ++ [e] |}.

(** The integers a statement parameter can take: signed, 64 bits. *)
Definition sqlite_int (z : Z) : bool := (- 2 ^ 63 <=? z) && (z <=? 2 ^ 63 - 1).

(** [g.db.execute] binds the arguments before it runs the statement.  The
    limit and the offset of a timeline query are computed from the page
    number of the request and must fit; the other integers are ids read
    from the store. *)
Definition bindable {A} (q : query A) : bool :=
  match q with
  | SelectHome _ _ limit offset
  | SelectPublic limit offset
  | SelectProfile _ limit offset => sqlite_int limit && sqlite_int offset
  | _ => true
  end.

(** [query_db(query, args)] and [query_db(query, args, one=True)]; an
    argument that cannot be bound raises before anything is run. *)
Definition query_db `{SqlEngine} {A} (q : query A) : handler (list A) :=
  λ w, if bindable q then (Done (run_query q (db w)), log (Queried q) w)
       else (Failed OverflowError, w).

Definition query_db_one `{SqlEngine} {A} (q : query A) : handler (option A) :=
  let* rv := query_db q in ret (head rv).

(** [g.db.execute(statement, args)] and [g.db.commit()] *)
Definition db_execute (s : statement) : handler () :=
  λ w, (Done (),
        log (Executed s)
          {| db := run_statement s (db w); sess := sess w;
             g_user := g_user w; trace := trace w |}).

Definition db_commit : handler () := λ w, (Done (), log Committed w).

(** [get_user_id(username)]: look up the id for a username. *)
Definition get_user_id `{SqlEngine} (name : string) : handler (option Z) :=
  let* rv := query_db (SelectUserIdByName name) in ret (head rv).

(** [g.user] and its assignment *)
Definition get_g_user : handler (option user) := λ w, (Done (g_user w), w).

Definition set_g_user (u : option user) : handler () :=
  λ w, (Done (), {| db := db w; sess := sess w; g_user := u; trace := trace w |}).

(** ["user_id" in session], [session["user_id"]] (a missing key raises),
    [session["user_id"] = uid] and [session.pop("user_id", None)] *)
Definition session_has_user_id : handler bool :=
  λ w, (Done (bool_decide (is_Some (session_user_id (sess w)))), w).

Definition session_get_user_id : handler Z :=
  λ w, match session_user_id (sess w) with
       | Some uid => (Done uid, w)
       | None => (Failed (KeyError "user_id"), w)
       end.

Definition session_set_user_id (uid : Z) : handler () :=
  λ w, (Done (),
        {| db := db w;
           sess := {| session_user_id := Some uid;
                      session_flashes := session_flashes (sess w) |};
           g_user := g_user w; trace := trace w |}).

Definition session_pop_user_id : handler () :=
  λ w, (Done (),
        {| db := db w;
           sess := {| session_user_id := None;
                      session_flashes := session_flashes (sess w) |};
           g_user := g_user w; trace := trace w |}).

(** [flash(message)] *)
Definition flash (msg : string) : handler () :=
  λ w, (Done (),
        {| db := db w;
           sess := {| session_user_id := session_user_id (sess w);
                      session_flashes := session_flashes (sess w) ++ [msg] |};
           g_user := g_user w; trace := trace w |}).

(** [request.form[key]]: a missing key raises. *)
Definition form (req : request) (key : string) : handler string :=
  λ w, match req_form req !! key with
       | Some v => (Done v, w)
       | None => (Failed (BadRequestKeyError key), w)
       end.

(** [request.args.get("p", default=0, type=int)] *)
Definition page_arg (req : request) : Z := default 0 (req_page req).

Definition check_password `{Werkzeug} (hash password : string) : handler bool :=
  λ w, (Done (check_password_hash hash password),
        log (PasswordChecked hash password) w).

Definition hash_password `{Werkzeug} (password : string) : handler string :=
  λ w, (Done (generate_password_hash password), log (PasswordHashed password) w).

(** ['"%s"' % s]: the string between double quotes (character 34). *)
Definition quoted (s : string) : string :=
  let q := String (Ascii.ascii_of_nat 34) EmptyString in q +:+ s +:+ q.

(** Truth value of a Python string, and ["@" in s]. *)
Definition nonempty (s : string) : bool := negb (String.eqb s "").

Fixpoint contains_at (s : string) : bool :=
  match s with
  | EmptyString => false
  | String c s' => Ascii.eqb c "@"%char || contains_at s'
  end.

(** The configuration of the module. *)
Definition DEBUG : bool := true.

(** An HTTP error raised by a view is the response of the request.  An
    exception is not caught by the application when [DEBUG] is set, a
    missing form key included; otherwise a missing form key is answered
    with status 400 and any other exception with status 500. *)
Definition respond (o : outcome response) : response :=
  match o with
  | Done resp => resp
  | Raised status => Abort status
  | Failed e =>
      if DEBUG then Unhandled e
      else match e with
           | BadRequestKeyError _ => Abort 400
           | _ => Abort 500
           end
  end.

(** ** The view functions *)

Definition PER_PAGE : Z := 30.

Section views.
Context `{SqlEngine} `{Werkzeug}.

Definition before_request : handler () :=
  set_g_user None;;
  let* has := session_has_user_id in
  if has then
    let* uid := session_get_user_id in
    let* u := query_db_one (SelectUserById uid) in
    set_g_user u
  else ret ().

Definition timeline (req : request) : handler response :=
  let page := page_arg req in
  let* u := get_g_user in
  if negb (bool_decide (is_Some u)) then ret (Redirect EpPublicTimeline)
  else
    let* uid1 := session_get_user_id in
    let* uid2 := session_get_user_id in
    let* messages := query_db (SelectHome uid1 uid2 PER_PAGE (page * PER_PAGE)) in
    ret (RenderTimeline messages None None).

Definition public_timeline (req : request) : handler response :=
  let page := page_arg req in
  let* messages := query_db (SelectPublic PER_PAGE (page * PER_PAGE)) in
  ret (RenderTimeline messages None None).

Definition user_timeline (name : string) (req : request) : handler response :=
  let* profile_user := query_db_one (SelectUserByName name) in
  match profile_user with
  | None => abort 404
  | Some pu =>
      let* u := get_g_user in
      let* followed :=
        (if bool_decide (is_Some u) then
           let* uid := session_get_user_id in
           let* edge := query_db_one (SelectFollows uid (user_id pu)) in
           ret (bool_decide (is_Some edge))
         else ret false) in
      let page := page_arg req in
      let* messages :=
        query_db (SelectProfile (user_id pu) PER_PAGE (page * PER_PAGE)) in
      ret (RenderTimeline messages (Some followed) (Some pu))
  end.

Definition follow_user (name : string) : handler response :=
  let* u := get_g_user in
  (if negb (bool_decide (is_Some u)) then abort 401 else ret ());;
  let* whom := get_user_id name in
  match whom with
  | None => abort 404
  | Some whom_id =>
      let* uid := session_get_user_id in
      db_execute (InsertFollower uid whom_id);;
      db_commit;;
      flash ("You are now following " +:+ quoted name);;
      ret (Redirect (EpUserTimeline name))
  end.

Definition unfollow_user (name : string) : handler response :=
  let* u := get_g_user in
  (if negb (bool_decide (is_Some u)) then abort 401 else ret ());;
  let* whom := get_user_id name in
  match whom with
  | None => abort 404
  | Some whom_id =>
      let* uid := session_get_user_id in
      db_execute (DeleteFollower uid whom_id);;
      db_commit;;
      flash ("You are no longer following " +:+ quoted name);;
      ret (Redirect (EpUserTimeline name))
  end.

Definition add_message (req : request) : handler response :=
  let* has := session_has_user_id in
  (if negb has then abort 401 else ret ());;
  let* body := form req "text" in
  (if nonempty body then
     let* uid := session_get_user_id in
     let* body := form req "text" in
     db_execute (InsertMessage uid body (req_time req));;
     db_commit;;
     flash "Your message was recorded"
   else ret ());;
  ret (Redirect EpTimeline).

Definition login (req : request) : handler response :=
  let* u := get_g_user in
  if bool_decide (is_Some u) then ret (Redirect EpTimeline)
  else
    let* r :=
      (match req_method req with
       | POST =>
           let* name := form req "username" in
           let* user := query_db_one (SelectUserByName name) in
           match user with
           | None => ret (inl (Some "Invalid username"))
           | Some user =>
               let* password := form req "password" in
               let* ok := check_password (pw_hash user) password in
               if negb ok then ret (inl (Some "Invalid password"))
               else
                 flash "You were logged in";;
                 session_set_user_id (user_id user);;
                 ret (inr (Redirect EpTimeline))
           end
       | GET | HEAD => ret (inl None)
       end) in
    match r with
    | inl error => ret (RenderLogin error)
    | inr resp => ret resp
    end.

Definition register (req : request) : handler response :=
  let* u := get_g_user in
  if bool_decide (is_Some u) then ret (Redirect EpTimeline)
  else
    let* r :=
      (match req_method req with
       | POST =>
           let* name := form req "username" in
           if negb (nonempty name) then
             ret (inl (Some "You have to enter a username"))
           else
           let* mail := form req "email" in
           let* bad_mail :=
             (if negb (nonempty mail) then ret true
              else let* mail := form req "email" in ret (negb (contains_at mail))) in
           if (bad_mail : bool) then
             ret (inl (Some "You have to enter a valid email address"))
           else
           let* password := form req "password" in
           if negb (nonempty password) then
             ret (inl (Some "You have to enter a password"))
           else
           let* password := form req "password" in
           let* password2 := form req "password2" in
           if negb (String.eqb password password2) then
             ret (inl (Some "The two passwords do not match"))
           else
           let* name := form req "username" in
           let* taken := get_user_id name in
           if bool_decide (is_Some taken) then
             ret (inl (Some "The username is already taken"))
           else
             let* name := form req "username" in
             let* mail := form req "email" in
             let* password := form req "password" in
             let* hash := hash_password password in
             db_execute (InsertUser name mail hash);;
             db_commit;;
             flash "You were successfully registered and can login now";;
             ret (inr (Redirect EpLogin))
       | GET | HEAD => ret (inl None)
       end) in
    match r with
    | inl error => ret (RenderRegister error)
    | inr resp => ret resp
    end.

Definition logout : handler response :=
  flash "You were logged out";;
  session_pop_user_id;;
  ret (Redirect EpPublicTimeline).

(** A request from start to end: [before_request], then the view; an
    HTTP error raised on the way is the response. *)
Definition serve (view : handler response) (d : database) (s : session)
    : response * world :=
  let (o, w) := (before_request;; view) (World d s None []) in (respond o, w).
End views.

(** The message rows a response carries. *)
Definition response_messages (resp : response) : list row :=
  match resp with
  | RenderTimeline messages _ _ => messages
  | _ => []
  end.

(** ** The vocabulary of the specification *)

(** [lookup_user_id(username)]: the lookup [get_user_id] runs. *)
Definition lookup_user_id `{SqlEngine} (name : string) (d : database) : option Z :=
  head (run_query (SelectUserIdByName name) d).

(** [is_following(A, B)]: the test [user_timeline] runs for [followed]. *)
Definition is_following `{SqlEngine} (A B : Z) (d : database) : bool :=
  bool_decide (is_Some (head (run_query (SelectFollows A B) d))).

(** [add_follow(A, B)] and [remove_follow(A, B)]: the statements of
    [follow_user] and [unfollow_user]. *)
Definition add_follow (A B : Z) (d : database) : database :=
  run_statement (InsertFollower A B) d.

Definition remove_follow (A B : Z) (d : database) : database :=
  run_statement (DeleteFollower A B) d.

(** The authenticated viewer of a request: the user row [before_request]
    finds for [session["user_id"]]. *)
Definition viewer `{SqlEngine} (d : database) (s : session) : option user :=
  uid ← session_user_id s; head (run_query (SelectUserById uid) d).

(** The invariants of the data model: user identifiers are unique and the
    author of every message is an existing user. *)
Definition db_consistent (d : database) : Prop :=
  NoDup (user_id <$> user_table d) ∧
  Forall (λ m, author_id m ∈ user_id <$> user_table d) (message_table d).

#[export] Instance db_consistent_dec d : Decision (db_consistent d).
Proof. unfold db_consistent. apply _. Defined.

(** The follow relation as a set of edges, and the messages the three
    scopes draw from. *)
Definition follows (d : database) (A B : Z) : bool :=
  bool_decide (Follower A B ∈ follower_table d).

Definition unflagged (m : message) : bool := flagged m =? 0.

Definition home_visible (d : database) (V : Z) (m : message) : bool :=
  unflagged m && ((author_id m =? V) || follows d V (author_id m)).

Definition is_timeline_query (e : event) : bool :=
  match e with
  | Queried q =>
      match q with
      | SelectHome _ _ _ _ | SelectPublic _ _ | SelectProfile _ _ _ => true
      | _ => false
      end
  | _ => false
  end.

Definition is_write (e : event) : bool :=
  match e with
  | Executed _ | Committed => true
  | _ => false
  end.

Definition is_credential_check (e : event) : bool :=
  match e with
  | PasswordChecked _ _ | PasswordHashed _ => true
  | Queried q => match q with SelectUserByName _ => true | _ => false end
  | _ => false
  end.

(** An error surfaced to the caller: an HTTP error status, an exception
    or a template rendered with an error message. *)
Definition is_error_response (resp : response) : bool :=
  match resp with
  | Abort _ | Unhandled _ | RenderLogin (Some _) | RenderRegister (Some _) => true
  | _ => false
  end.

(** The world a view starts in, once [before_request] has run. *)
Definition request_world `{SqlEngine} (d : database) (s : session) : world :=
  {| db := d; sess := s; g_user := viewer d s;
     trace := match session_user_id s with
              | Some uid => [Queried (SelectUserById uid)]
              | None => []
              end |}.

(** The rows of any timeline query: unflagged messages of the store,
    each joined with the row of its author. *)
Definition joined_unflagged (d : database) (r : row) : Prop :=
  r.1 ∈ message_table d ∧ r.2 ∈ user_table d ∧
  flagged r.1 = 0 ∧ user_id r.2 = author_id r.1.

(** A registration form that passes every check of [register] short of the
    username lookup. *)
Definition valid_registration (req : request) (name mail password : string) : Prop :=
  req_method req = POST ∧
  req_form req !! "username" = Some name ∧
  req_form req !! "email" = Some mail ∧
  req_form req !! "password" = Some password ∧
  req_form req !! "password2" = Some password ∧
  nonempty name = true ∧ nonempty mail = true ∧ contains_at mail = true ∧
  nonempty password = true.

(** A session whose user id belongs to no row of [sample_db]. *)
Definition stale_session : session := Session (Some 9) [].

Definition text_post : request := Request POST {[ "text" := "more" ]} None 1234.

Definition carol_login : request :=
  Request POST {[ "username" := "carol"; "password" := "pw3" ]} None 1000.

Definition nameless_post : request :=
  Request POST {[ "username" := "" ]} None 1000.

(** Nothing was written, no credential was looked at, and the session is
    the one the request came with. *)
Definition left_untouched (d : database) (s : session) (w : world) : Prop :=
  db w = d ∧ sess w = s ∧
  Forall (λ e, is_credential_check e = false ∧ is_write e = false) (trace w).

(** ** Sample states *)

Definition alice : user := User 1 "alice" "a@x.com" "#pw1".
Definition bob : user := User 2 "bob" "b@x.com" "#pw2".

(** Alice follows Bob; Bob has one flagged message; message 4 has an
    author that is no user. *)
Definition sample_db : database :=
  Database [alice; bob] [Follower 1 2]
    [Message 1 1 "hello" 100 0; Message 2 2 "hi alice" 200 0;
     Message 3 2 "spam" 300 1; Message 4 7 "orphan" 400 0].

(** Alice alone, with 35 unflagged messages of her own, one per second. *)
Definition crowded_db : database :=
  Database [alice] [] ((λ i, Message i 1 "tick" i 0) <$> seqZ 1 35).

Definition anonymous : session := Session None [].
Definition alice_session : session := Session (Some 1) [].

Definition get_request : request := Request GET ∅ None 1000.

Definition page_request (p : Z) : request := Request GET ∅ (Some p) 1000.

Definition empty_post : request := Request POST {[ "text" := "" ]} None 1000.

Definition register_post : request :=
  Request POST
    {[ "username" := "carol"; "email" := "c@x.com";
       "password" := "pw3"; "password2" := "pw3" ]} None 1000.

Definition login_post : request :=
  Request POST {[ "username" := "alice"; "password" := "pw1" ]} None 1000.

(** ** The routes *)

(** The view functions registered with [app.route], by name ([metrics]
    left out: it reads neither the store nor the session). *)
Inductive route :=
  | RTimeline
  | RPublicTimeline
  | RUserTimeline (name : string)
  | RFollowUser (name : string)
  | RUnfollowUser (name : string)
  | RAddMessage
  | RLogin
  | RRegister
  | RLogout.

(** The [methods] of each route: [add_message] takes POST only, [login]
    and [register] take GET and POST, the others take GET; HEAD comes with
    GET. *)
Definition allows (r : route) (m : http_method) : bool :=
  match r, m with
  | RAddMessage, POST => true
  | RAddMessage, _ => false
  | (RLogin | RRegister), _ => true
  | _, POST => false
  | _, _ => true
  end.

(** The view a route runs; a method the route does not take is answered
    with status 405 and the view is not called. *)
Definition view `{SqlEngine} `{Werkzeug} (r : route) (req : request)
    : handler response :=
  if negb (allows r (req_method req)) then abort 405
  else
    match r with
    | RTimeline => timeline req
    | RPublicTimeline => public_timeline req
    | RUserTimeline name => user_timeline name req
    | RFollowUser name => follow_user name
    | RUnfollowUser name => unfollow_user name
    | RAddMessage => add_message req
    | RLogin => login req
    | RRegister => register req
    | RLogout => logout
    end.

(** The row [login] and [user_timeline] find for a username. *)
Definition lookup_user_by_name `{SqlEngine} (name : string) (d : database)
    : option user :=
  head (run_query (SelectUserByName name) d).

(** How many (A,B) rows the follower table holds. *)
Definition edge_count (A B : Z) (d : database) : nat :=
  length (List.filter (follower_matches A B) (follower_table d)).

(** The row [add_message] inserts for author V at time t. *)
Definition posted_message (d : database) (V : Z) (body : string) (t : Z) : message :=
  Message (next_rowid (message_id <$> message_table d)) V body t 0.

(** A session id, when present, is the id of a user row. *)
Definition session_refers_to_user `{SqlEngine} (d : database) (s : session) : Prop :=
  is_Some (session_user_id s) → is_Some (viewer d s).

(** Walk every branch of a view: reduce, reuse what earlier reads of the
    same state returned, split on the next test. *)
Ltac reuse_reads :=
  repeat match goal with
         | H : ?x = _ |- context [match ?x with _ => _ end] => rewrite H
         end.

(** Run a view along one path: reduce and rewrite with what is known of
    the request and the state. *)
Ltac run :=
  repeat (progress (cbn -[run_query run_statement];
                    repeat match goal with
                           | H : ?f ?a = _ |- context [?f ?a] => rewrite H
                           end)).

Ltac walk :=
  repeat (cbn -[run_query run_statement] in *; reuse_reads; try case_match;
          simplify_eq).

(** ** Lists, joins and pages *)

Section join.
Implicit Types (m : message) (u : user) (q : message → bool).

Lemma pair_with_users m (us : list user) :
  (u ← us; [(m, u)]) = (λ u, (m, u)) <$> us.
Proof. induction us as [|u us IH]; [done|]. cbn. by rewrite <-IH. Qed.

Lemma cross_join_cons m ms us fs :
  cross_join (Database us fs (m :: ms)) =
  ((λ u, (m, u)) <$> us) ++ cross_join (Database us fs ms).
Proof. unfold cross_join. cbn -[mbind]. by rewrite bind_cons, pair_with_users. Qed.

(** With unique identifiers, exactly one user row joins a message whose
    author exists. *)
Lemma one_author (a : Z) (us : list user) :
  NoDup (user_id <$> us) → a ∈ user_id <$> us →
  length (List.filter (λ u, a =? user_id u) us) = 1%nat.
Proof.
  induction us as [|u us IH]; intros Hnd Hin.
  - by apply elem_of_nil in Hin.
  - cbn in *. apply NoDup_cons in Hnd as [Hnotin Hnd].
    destruct (Z.eqb_spec a (user_id u)) as [->|Hne].
    + cbn. f_equal. apply length_zero_iff_nil.
      destruct (List.filter _ us) as [|u' ?] eqn:Hf; [done|].
      assert (In u' (List.filter (λ u0, user_id u =? user_id u0) us)) as Hu'
        by (rewrite Hf; left; done).
      apply filter_In in Hu' as [Hu' He%Z.eqb_eq].
      exfalso. apply Hnotin. rewrite He.
      apply list_elem_of_fmap. exists u'. by rewrite list_elem_of_In.
    + apply IH; [done|]. apply elem_of_cons in Hin as [?|?]; done.
Qed.

Lemma filter_pair_one m q (us : list user) :
  NoDup (user_id <$> us) → author_id m ∈ user_id <$> us →
  fst <$> List.filter (λ r : row, q r.1 && (author_id r.1 =? user_id r.2))
            ((λ u, (m, u)) <$> us) =
  if q m then [m] else [].
Proof.
  intros Hnd Hin.
  assert (∀ us', fst <$> List.filter
                   (λ r : row, q r.1 && (author_id r.1 =? user_id r.2))
                   ((λ u, (m, u)) <$> us') =
                 if q m then (λ _, m) <$> List.filter (λ u, author_id m =? user_id u) us'
                 else []) as Hgen.
  { induction us' as [|u us' IH]; [by destruct (q m)|].
    cbn. destruct (q m) eqn:Hq; cbn in *.
    - destruct (author_id m =? user_id u); cbn; by rewrite IH.
    - done. }
  rewrite Hgen. destruct (q m); [|done].
  pose proof (one_author _ _ Hnd Hin) as Hlen.
  destruct (List.filter _ us) as [|u1 [|u2 ?]]; cbn in *; by try lia.
Qed.

(** Under the invariants of the data model the join selects each
    message once, in table order. *)
Lemma join_selects_messages q (d : database) :
  db_consistent d →
  fst <$> List.filter (λ r : row, q r.1 && (author_id r.1 =? user_id r.2))
            (cross_join d) =
  List.filter q (message_table d).
Proof.
  destruct d as [us fs ms]. intros [Hnd Hall].
  cbn [user_table message_table] in *.
  induction ms as [|m ms IH]; [done|].
  apply Forall_cons in Hall as [Hm Hall].
  rewrite cross_join_cons, List.filter_app, fmap_app, IH by done.
  rewrite filter_pair_one by done. cbn. by destruct (q m).
Qed.

(** Every joined row pairs a message of the store with the user row of
    its author. *)
Lemma elem_of_cross_join (r : row) (d : database) :
  r ∈ cross_join d ↔ r.1 ∈ message_table d ∧ r.2 ∈ user_table d.
Proof.
  unfold cross_join. rewrite list_elem_of_bind. split.
  - intros (m & Hr & Hm). apply list_elem_of_bind in Hr as (u & Hr & Hu).
    apply list_elem_of_singleton in Hr as ->. done.
  - intros [Hm Hu]. exists r.1. split; [|done].
    apply list_elem_of_bind. exists r.2. split; [|done].
    destruct r. by apply list_elem_of_singleton.
Qed.
End join.

(** ** The timeline queries *)

Section queries.
Context `{SqlEngine}.

Lemma where_home_visible (d : database) (V : Z) (r : row) :
  where_home d V V r = home_visible d V r.1 && (author_id r.1 =? user_id r.2).
Proof.
  unfold where_home, home_visible, unflagged, follows.
  assert (∀ a, existsb (Z.eqb a) (whom_ids_of d V) =
               bool_decide (Follower V a ∈ follower_table d)) as Hex.
  { intros a. apply eq_true_iff_eq.
    rewrite existsb_exists, bool_decide_eq_true. unfold whom_ids_of. split.
    - intros (b & Hb & Hab%Z.eqb_eq). subst b.
      apply list_elem_of_In, list_elem_of_fmap in Hb as ([who whom] & -> & Hf).
      apply list_elem_of_In, filter_In in Hf as [Hf Hw%Z.eqb_eq].
      cbn in *. subst. by apply list_elem_of_In.
    - intros Hin. exists a. split; [|by apply Z.eqb_eq].
      apply list_elem_of_In, list_elem_of_fmap. exists (Follower V a).
      split; [done|]. apply list_elem_of_In, filter_In.
      split; [by apply list_elem_of_In|]. by apply Z.eqb_eq. }
  destruct (Z.eqb_spec (author_id r.1) (user_id r.2)) as [Heq|Hne].
  - rewrite <-Heq, Hex. by rewrite !andb_true_r.
  - by rewrite !andb_false_r.
Qed.

Lemma where_profile_author (uid : Z) (r : row) :
  where_profile uid r =
  (unflagged r.1 && (author_id r.1 =? uid)) && (author_id r.1 =? user_id r.2).
Proof.
  unfold where_profile, unflagged.
  destruct (Z.eqb_spec (author_id r.1) (user_id r.2)) as [Heq|Hne].
  - rewrite <-Heq, Z.eqb_refl. by rewrite !andb_true_r.
  - rewrite (proj2 (Z.eqb_neq (user_id r.2) (author_id r.1))) by done.
    by rewrite !andb_false_r.
Qed.

(** What [limit] and [offset] keep was there before. *)
Lemma limit_offset_subseteq {A} (limit offset : Z) (l : list A) :
  limit_offset limit offset l ⊆ l.
Proof.
  unfold limit_offset. intros x Hx.
  destruct (limit <? 0).
  - by eapply subseteq_drop.
  - by eapply subseteq_drop, subseteq_take.
Qed.

Lemma limit_offset_page {A} (p : Z) (l : list A) :
  limit_offset PER_PAGE (p * PER_PAGE) l =
  take 30 (drop (Z.to_nat (p * 30)) l).
Proof. done. Qed.

(** A row of a page of sorted, selected rows satisfies the selection. *)
Lemma page_of_selected (wh : row → bool) (limit offset : Z) (d : database) (r : row) :
  r ∈ limit_offset limit offset (order_by_pub_date_desc (List.filter wh (cross_join d))) →
  wh r = true ∧ r ∈ cross_join d.
Proof.
  intros Hr%limit_offset_subseteq. rewrite order_by_perm in Hr.
  apply list_elem_of_In, filter_In in Hr as [Hr Hwh]. by rewrite list_elem_of_In.
Qed.

Lemma home_rows_joined d uid1 uid2 limit offset :
  Forall (joined_unflagged d) (run_query (SelectHome uid1 uid2 limit offset) d).
Proof.
  apply Forall_forall. intros r Hr.
  apply page_of_selected in Hr as [Hwh Hin]. apply elem_of_cross_join in Hin.
  unfold where_home in Hwh.
  apply andb_true_iff in Hwh as [Hwh _].
  apply andb_true_iff in Hwh as [Hf Ha]. apply Z.eqb_eq in Hf, Ha.
  destruct Hin as [Hm Hu]. by repeat split.
Qed.

Lemma public_rows_joined d limit offset :
  Forall (joined_unflagged d) (run_query (SelectPublic limit offset) d).
Proof.
  apply Forall_forall. intros r Hr.
  apply page_of_selected in Hr as [Hwh Hin]. apply elem_of_cross_join in Hin.
  unfold where_public in Hwh.
  apply andb_true_iff in Hwh as [Hf Ha]. apply Z.eqb_eq in Hf, Ha.
  destruct Hin as [Hm Hu]. by repeat split.
Qed.

Lemma profile_rows_joined d uid limit offset :
  Forall (joined_unflagged d) (run_query (SelectProfile uid limit offset) d).
Proof.
  apply Forall_forall. intros r Hr.
  apply page_of_selected in Hr as [Hwh Hin]. apply elem_of_cross_join in Hin.
  unfold where_profile in Hwh.
  apply andb_true_iff in Hwh as [Hwh _].
  apply andb_true_iff in Hwh as [Hf Ha]. apply Z.eqb_eq in Hf, Ha.
  destruct Hin as [Hm Hu]. by repeat split.
Qed.

(** *** The messages behind each scope *)

Lemma public_selected_messages (d : database) :
  db_consistent d →
  fst <$> order_by_pub_date_desc (List.filter where_public (cross_join d)) ≡ₚ
  List.filter unflagged (message_table d).
Proof.
  intros Hd. rewrite order_by_perm.
  by rewrite <-(join_selects_messages unflagged d Hd).
Qed.

Lemma home_selected_messages (d : database) (V : Z) :
  db_consistent d →
  fst <$> order_by_pub_date_desc (List.filter (where_home d V V) (cross_join d)) ≡ₚ
  List.filter (home_visible d V) (message_table d).
Proof.
  intros Hd. rewrite order_by_perm.
  rewrite <-(join_selects_messages (home_visible d V) d Hd).
  by rewrite (List.filter_ext _ _ (where_home_visible d V)).
Qed.

Lemma profile_selected_messages (d : database) (uid : Z) :
  db_consistent d →
  fst <$> order_by_pub_date_desc (List.filter (where_profile uid) (cross_join d)) ≡ₚ
  List.filter (λ m, unflagged m && (author_id m =? uid)) (message_table d).
Proof.
  intros Hd. rewrite order_by_perm.
  rewrite <-(join_selects_messages (λ m, unflagged m && (author_id m =? uid)) d Hd).
  by rewrite (List.filter_ext _ _ (where_profile_author uid)).
Qed.

(** Two consecutive pages of a sorted list: the earlier page holds the
    more recent rows. *)
Lemma sorted_pages (S : list row) (n : nat) (r0 r1 : row) :
  StronglySorted pub_date_desc S → r0 ∈ take n S → r1 ∈ drop n S →
  pub_date r1.1 ≤ pub_date r0.1.
Proof.
  intros HS H0 H1. rewrite <-(take_drop n S) in HS.
  apply (StronglySorted_app_1_elem_of _ _ _ _ _ HS H0 H1).
Qed.

(** *** Follow edges *)

Lemma is_following_follows (A B : Z) (d : database) :
  is_following A B d = follows d A B.
Proof.
  unfold is_following, follows. apply bool_decide_ext. cbn. split.
  - destruct (List.filter _ _) as [|f fs] eqn:Hf; cbn; intros [x Hx]; [done|].
    assert (In f (List.filter (follower_matches A B) (follower_table d))) as Hin
      by (rewrite Hf; by left).
    apply filter_In in Hin as [Hin Hm]. destruct f as [who whom].
    apply andb_true_iff in Hm as [Hwho Hwhom]. cbn in *.
    apply Z.eqb_eq in Hwho, Hwhom. subst. by apply list_elem_of_In.
  - intros Hin.
    assert (In (Follower A B) (List.filter (follower_matches A B) (follower_table d)))
      as Hf.
    { apply filter_In. split; [by apply list_elem_of_In|].
      unfold follower_matches. cbn. by rewrite !Z.eqb_refl. }
    destruct (List.filter _ _); [done|]. by eexists.
Qed.

Lemma filter_all {A} (p : A → bool) (l : list A) :
  Forall (λ x, p x = true) l → List.filter p l = l.
Proof. induction 1 as [|x l Hx _ IH]; [done|]. cbn. by rewrite Hx, IH. Qed.

Lemma add_follow_follows (A B : Z) (d : database) :
  follows (add_follow A B d) A B = true.
Proof.
  unfold follows, add_follow. apply bool_decide_eq_true. cbn.
  apply elem_of_app. right. by apply list_elem_of_singleton.
Qed.

Lemma remove_follow_follows (A B : Z) (d : database) :
  follows (remove_follow A B d) A B = false.
Proof.
  unfold follows, remove_follow. apply bool_decide_eq_false. cbn.
  intros Hin. apply list_elem_of_In, filter_In in Hin as [_ Hm].
  unfold follower_matches in Hm. cbn in Hm. by rewrite !Z.eqb_refl in Hm.
Qed.

Lemma remove_follow_absent (A B : Z) (d : database) :
  follows d A B = false → remove_follow A B d = d.
Proof.
  unfold follows, remove_follow. intros Hnot%bool_decide_eq_false.
  destruct d as [us fs ms]. cbn in *. f_equal.
  apply filter_all, Forall_forall. intros [who whom] Hin.
  apply negb_true_iff, not_true_is_false. intros Hm.
  apply andb_true_iff in Hm as [Hwho Hwhom]. cbn in *.
  apply Z.eqb_eq in Hwho, Hwhom. by subst.
Qed.

(** *** User rows *)

Lemma next_rowid_fresh (ids : list Z) : Forall (λ i, i ≠ next_rowid ids) ids.
Proof.
  assert (Forall (λ i, i ≤ foldr Z.max 0 ids) ids) as Hmax.
  { induction ids as [|i ids IH]; constructor; cbn; [lia|].
    eapply Forall_impl; [exact IH|]. cbn. intros; lia. }
  eapply Forall_impl; [exact Hmax|]. unfold next_rowid. cbn. intros; lia.
Qed.

(** *** The invariants of the data model are kept by every write *)

Lemma insert_user_consistent (name mail hash : string) (d : database) :
  db_consistent d → db_consistent (run_statement (InsertUser name mail hash) d).
Proof.
  intros [Hnd Hall]. split; cbn.
  - rewrite fmap_app. apply NoDup_app. split_and!; [done| |by apply NoDup_singleton].
    intros i Hi Hnew%list_elem_of_singleton. cbn in Hnew.
    by apply (proj1 (Forall_forall _ _) (next_rowid_fresh (user_id <$> user_table d)) i).
  - eapply Forall_impl; [exact Hall|]. cbn. intros m Hm.
    rewrite fmap_app. apply elem_of_app. by left.
Qed.

Lemma insert_message_consistent (author : Z) (body : string) (date : Z) (d : database) :
  db_consistent d → author ∈ user_id <$> user_table d →
  db_consistent (run_statement (InsertMessage author body date) d).
Proof.
  intros [Hnd Hall] Hauthor. split; cbn; [done|].
  apply Forall_app. split; [done|]. by repeat constructor.
Qed.

Lemma follower_statement_consistent (who whom : Z) (d : database) :
  db_consistent d →
  db_consistent (run_statement (InsertFollower who whom) d) ∧
  db_consistent (run_statement (DeleteFollower who whom) d).
Proof. by intros [Hnd Hall]. Qed.

Lemma lookup_user_id_absent (name : string) (d : database) :
  Forall (λ u, username u ≠ name) (user_table d) → lookup_user_id name d = None.
Proof.
  unfold lookup_user_id. cbn. intros Hall.
  replace (List.filter _ (user_table d)) with (@nil user); [done|].
  symmetry. induction Hall as [|u us Hu _ IH]; [done|]. cbn.
  by rewrite (proj2 (String.eqb_neq _ _) Hu).
Qed.

Lemma lookup_user_id_inserted (name mail hash : string) (d : database) :
  Forall (λ u, username u ≠ name) (user_table d) →
  lookup_user_id name (run_statement (InsertUser name mail hash) d) =
  Some (next_rowid (user_id <$> user_table d)).
Proof.
  unfold lookup_user_id. cbn. intros Hall. rewrite List.filter_app. cbn.
  rewrite String.eqb_refl.
  replace (List.filter _ (user_table d)) with (@nil user); [done|].
  symmetry. induction Hall as [|u us Hu _ IH]; [done|]. cbn.
  by rewrite (proj2 (String.eqb_neq _ _) Hu).
Qed.
End queries.

(** ** Running a request *)

Section requests.
Context `{SqlEngine} `{Werkzeug}.

Lemma before_request_run (d : database) (s : session) :
  before_request (World d s None []) = (Done (), request_world d s).
Proof. destruct s as [[uid|] fl]; done. Qed.

Lemma serve_run (view : handler response) (d : database) (s : session) :
  serve view d s =
  (respond (view (request_world d s)).1, (view (request_world d s)).2).
Proof.
  unfold serve, bind. rewrite before_request_run.
  by destruct (view (request_world d s)) as [[resp|status|e] w].
Qed.

Lemma timeline_anonymous (req : request) (w : world) :
  g_user w = None → timeline req w = (Done (Redirect EpPublicTimeline), w).
Proof. intros Hg. unfold timeline, bind, get_g_user. by rewrite Hg. Qed.

Lemma sqlite_int_PER_PAGE : sqlite_int PER_PAGE = true.
Proof. reflexivity. Qed.

Lemma sqlite_int_spec (z : Z) :
  sqlite_int z = true ↔ - 2 ^ 63 ≤ z ∧ z ≤ 2 ^ 63 - 1.
Proof. unfold sqlite_int. by rewrite andb_true_iff, !Z.leb_le. Qed.

Lemma sqlite_int_offset (p : Z) :
  0 ≤ p → p * 30 ≤ 2 ^ 63 - 1 → sqlite_int (p * PER_PAGE) = true.
Proof.
  unfold sqlite_int, PER_PAGE. rewrite andb_true_iff, !Z.leb_le.
  change (2 ^ 63) with 9223372036854775808. lia.
Qed.

Lemma page_arg_page (req : request) (p : Z) :
  req_page req = Some p → page_arg req = p.
Proof. unfold page_arg. by intros ->. Qed.

Lemma timeline_authenticated (req : request) (w : world) (V : Z) :
  is_Some (g_user w) → session_user_id (sess w) = Some V →
  sqlite_int (page_arg req * PER_PAGE) = true →
  timeline req w =
  (Done (RenderTimeline
           (run_query (SelectHome V V PER_PAGE (page_arg req * PER_PAGE)) (db w))
           None None),
   log (Queried (SelectHome V V PER_PAGE (page_arg req * PER_PAGE))) w).
Proof.
  intros [u Hg] Hs Hfits.
  unfold timeline, bind, get_g_user, session_get_user_id, query_db, ret.
  rewrite Hg. cbn -[run_query]. rewrite Hs. cbn -[run_query]. rewrite Hs.
  cbn -[run_query]. by rewrite sqlite_int_PER_PAGE, Hfits.
Qed.

Lemma public_timeline_run (req : request) (w : world) :
  sqlite_int (page_arg req * PER_PAGE) = true →
  public_timeline req w =
  (Done (RenderTimeline
           (run_query (SelectPublic PER_PAGE (page_arg req * PER_PAGE)) (db w))
           None None),
   log (Queried (SelectPublic PER_PAGE (page_arg req * PER_PAGE))) w).
Proof.
  intros Hfits. unfold public_timeline, bind, query_db, ret.
  cbn -[run_query]. by rewrite sqlite_int_PER_PAGE, Hfits.
Qed.

(** A page number whose offset does not fit makes the query raise. *)
Lemma public_timeline_overflow (req : request) (w : world) :
  sqlite_int (page_arg req * PER_PAGE) = false →
  public_timeline req w = (Failed OverflowError, w).
Proof.
  intros Hfits. unfold public_timeline, bind, query_db, ret.
  cbn -[run_query]. by rewrite sqlite_int_PER_PAGE, Hfits.
Qed.

(** The three timeline views only ever hand joined, unflagged rows to the
    template. *)
Lemma timeline_rows (req : request) (w : world) :
  Forall (joined_unflagged (db w)) (response_messages (respond (timeline req w).1)).
Proof.
  unfold timeline, bind, get_g_user, session_get_user_id, query_db, ret.
  destruct (g_user w) as [u|]; cbn -[run_query]; [|by constructor].
  destruct (session_user_id (sess w)) as [V|] eqn:Hs; cbn -[run_query];
    rewrite ?Hs; cbn -[run_query]; [|by constructor].
  destruct (sqlite_int PER_PAGE && sqlite_int (page_arg req * PER_PAGE));
    cbn -[run_query]; [|by constructor].
  apply home_rows_joined.
Qed.

Lemma public_timeline_rows (req : request) (w : world) :
  Forall (joined_unflagged (db w))
    (response_messages (respond (public_timeline req w).1)).
Proof.
  destruct (sqlite_int (page_arg req * PER_PAGE)) eqn:Hfits.
  - rewrite public_timeline_run by done. apply public_rows_joined.
  - rewrite public_timeline_overflow by done. by constructor.
Qed.

Lemma user_timeline_rows (name : string) (req : request) (w : world) :
  Forall (joined_unflagged (db w))
    (response_messages (respond (user_timeline name req w).1)).
Proof.
  unfold user_timeline, query_db_one, bind, get_g_user, session_get_user_id,
    query_db, ret, abort.
  cbn -[run_query].
  destruct (head (run_query (SelectUserByName name) (db w))) as [pu|];
    cbn -[run_query]; [|by constructor].
  destruct (g_user w) as [u|]; cbn -[run_query].
  - destruct (session_user_id (sess w)) as [V|]; cbn -[run_query];
      [|by constructor].
    destruct (sqlite_int PER_PAGE && sqlite_int (page_arg req * PER_PAGE));
      cbn -[run_query]; [|by constructor].
    apply profile_rows_joined.
  - destruct (sqlite_int PER_PAGE && sqlite_int (page_arg req * PER_PAGE));
      cbn -[run_query]; [|by constructor].
    apply profile_rows_joined.
Qed.

Lemma follow_user_run (name : string) (w : world) (V B : Z) :
  is_Some (g_user w) → session_user_id (sess w) = Some V →
  lookup_user_id name (db w) = Some B →
  (follow_user name w).1 = Done (Redirect (EpUserTimeline name)) ∧
  db (follow_user name w).2 = add_follow V B (db w).
Proof.
  intros [u Hg] Hs Hl. unfold lookup_user_id in Hl.
  unfold follow_user, get_user_id, bind, get_g_user, abort, ret, query_db,
    session_get_user_id, db_execute, db_commit, flash.
  rewrite Hg.
  by repeat (progress (cbn -[run_query run_statement]; rewrite ?Hs, ?Hl)).
Qed.

Lemma unfollow_user_run (name : string) (w : world) (V B : Z) :
  is_Some (g_user w) → session_user_id (sess w) = Some V →
  lookup_user_id name (db w) = Some B →
  (unfollow_user name w).1 = Done (Redirect (EpUserTimeline name)) ∧
  db (unfollow_user name w).2 = remove_follow V B (db w).
Proof.
  intros [u Hg] Hs Hl. unfold lookup_user_id in Hl.
  unfold unfollow_user, get_user_id, bind, get_g_user, abort, ret, query_db,
    session_get_user_id, db_execute, db_commit, flash.
  rewrite Hg.
  by repeat (progress (cbn -[run_query run_statement]; rewrite ?Hs, ?Hl)).
Qed.

Lemma register_fresh (req : request) (w : world) (name mail password : string) :
  valid_registration req name mail password → g_user w = None →
  lookup_user_id name (db w) = None →
  (register req w).1 = Done (Redirect EpLogin) ∧
  db (register req w).2 =
  run_statement (InsertUser name mail (generate_password_hash password)) (db w).
Proof.
  intros (Hm & Hu & He & Hp & Hp2 & Hn & Hne & Hat & Hpn) Hg Hl.
  unfold lookup_user_id in Hl.
  unfold register, get_user_id, bind, get_g_user, ret, query_db, form,
    hash_password, db_execute, db_commit, flash.
  rewrite Hg, Hm.
  by repeat (progress (cbn -[run_query run_statement];
                       rewrite ?Hu, ?He, ?Hp, ?Hp2, ?Hn, ?Hne, ?Hat, ?Hpn, ?Hl,
                         ?String.eqb_refl)).
Qed.

Lemma register_taken (req : request) (w : world) (name mail password : string) :
  valid_registration req name mail password → g_user w = None →
  is_Some (lookup_user_id name (db w)) →
  register req w =
  (Done (RenderRegister (Some "The username is already taken")),
   log (Queried (SelectUserIdByName name)) w).
Proof.
  intros (Hm & Hu & He & Hp & Hp2 & Hn & Hne & Hat & Hpn) Hg [uid Hl].
  unfold lookup_user_id in Hl.
  unfold register, get_user_id, bind, get_g_user, ret, query_db, form,
    hash_password, db_execute, db_commit, flash.
  rewrite Hg, Hm.
  by repeat (progress (cbn -[run_query run_statement];
                       rewrite ?Hu, ?He, ?Hp, ?Hp2, ?Hn, ?Hne, ?Hat, ?Hpn, ?Hl,
                         ?String.eqb_refl)).
Qed.

Lemma login_authenticated (req : request) (w : world) :
  is_Some (g_user w) → login req w = (Done (Redirect EpTimeline), w).
Proof. intros [u Hg]. unfold login, bind, get_g_user. by rewrite Hg. Qed.

Lemma register_authenticated (req : request) (w : world) :
  is_Some (g_user w) → register req w = (Done (Redirect EpTimeline), w).
Proof. intros [u Hg]. unfold register, bind, get_g_user. by rewrite Hg. Qed.

Lemma request_world_untouched (d : database) (s : session) :
  left_untouched d s (request_world d s).
Proof.
  split_and!; [done..|]. cbn. destruct (session_user_id s); by repeat constructor.
Qed.

Lemma add_message_empty (req : request) (w : world) :
  is_Some (session_user_id (sess w)) → req_form req !! "text" = Some "" →
  add_message req w = (Done (Redirect EpTimeline), w).
Proof.
  intros [uid Hs] Hf. unfold add_message, bind, session_has_user_id, form.
  rewrite Hs. cbn. by rewrite Hf.
Qed.
End requests.

Section properties.
Context `{SqlEngine} `{Werkzeug}.

(** C2: for every database state and every timeline query (home, public
    or per-user profile), every returned message has [flagged = 0]; no
    message with [flagged = 1] appears in the returned sequence. *)
Theorem timelines_never_return_flagged
    (name : string) (req : request) (d : database) (s : session) :
  Forall (λ r : row, flagged r.1 = 0 ∧ flagged r.1 ≠ 1)
    (response_messages (serve (timeline req) d s).1) ∧
  Forall (λ r : row, flagged r.1 = 0 ∧ flagged r.1 ≠ 1)
    (response_messages (serve (public_timeline req) d s).1) ∧
  Forall (λ r : row, flagged r.1 = 0 ∧ flagged r.1 ≠ 1)
    (response_messages (serve (user_timeline name req) d s).1).
Proof.
  assert (∀ rows, Forall (joined_unflagged d) rows →
                  Forall (λ r : row, flagged r.1 = 0 ∧ flagged r.1 ≠ 1) rows)
    as Himpl.
  { intros rows Hrows. eapply Forall_impl; [exact Hrows|].
    intros r (_ & _ & Hf & _). by rewrite Hf. }
  rewrite !serve_run. cbn [fst]. split_and!; apply Himpl.
  - apply (timeline_rows req (request_world d s)).
  - apply (public_timeline_rows req (request_world d s)).
  - apply (user_timeline_rows name req (request_world d s)).
Qed.

(** C9: every timeline query (home, public, per-user profile) joins each
    message with a user row of the store whose [user_id] equals the
    message's [author_id]; so a message whose [author_id] matches no
    existing user appears in no timeline view, whatever its flagged
    value. *)
Theorem timelines_join_author
    (name : string) (req : request) (d : database) (s : session) :
  Forall (λ r : row, r.2 ∈ user_table d ∧ user_id r.2 = author_id r.1)
    (response_messages (serve (timeline req) d s).1 ++
     response_messages (serve (public_timeline req) d s).1 ++
     response_messages (serve (user_timeline name req) d s).1) ∧
  ∀ m : message,
    Forall (λ u, user_id u ≠ author_id m) (user_table d) →
    (m ∉ fst <$> response_messages (serve (timeline req) d s).1) ∧
    (m ∉ fst <$> response_messages (serve (public_timeline req) d s).1) ∧
    (m ∉ fst <$> response_messages (serve (user_timeline name req) d s).1).
Proof.
  assert (∀ rows, Forall (joined_unflagged d) rows →
                  Forall (λ r : row, r.2 ∈ user_table d ∧
                                     user_id r.2 = author_id r.1) rows)
    as Himpl.
  { intros rows Hrows. eapply Forall_impl; [exact Hrows|].
    by intros r (_ & Hu & _ & Ha). }
  assert (∀ rows (m : message),
            Forall (joined_unflagged d) rows →
            Forall (λ u, user_id u ≠ author_id m) (user_table d) →
            m ∉ (fst <$> rows)) as Hnot.
  { intros rows m Hrows Hnone Hin.
    apply list_elem_of_fmap in Hin as (r & -> & Hr).
    destruct (proj1 (Forall_forall _ _) Hrows r Hr) as (_ & Hu & _ & Ha).
    by apply (proj1 (Forall_forall _ _) Hnone r.2 Hu). }
  pose proof (timeline_rows req (request_world d s)) as Hhome.
  pose proof (public_timeline_rows req (request_world d s)) as Hpublic.
  pose proof (user_timeline_rows name req (request_world d s)) as Hprofile.
  rewrite !serve_run. cbn [fst]. cbn [db request_world] in *. split.
  - rewrite !Forall_app. split_and!; by apply Himpl.
  - intros m Hm. split_and!; by eapply Hnot.
Qed.

(** C7: a request to the home view with no authenticated viewer is
    answered by a redirect to the public timeline, not by an error, and
    no timeline query is run for it (the store is left as it was). *)
Theorem anonymous_home_redirects_to_public
    (req : request) (d : database) (s : session) :
  viewer d s = None →
  (serve (timeline req) d s).1 = Redirect EpPublicTimeline ∧
  is_error_response (serve (timeline req) d s).1 = false ∧
  Forall (λ e, is_timeline_query e = false) (trace (serve (timeline req) d s).2) ∧
  db (serve (timeline req) d s).2 = d.
Proof.
  intros Hv. rewrite serve_run, timeline_anonymous by done. cbn.
  split_and!; try done.
  destruct (session_user_id s); by repeat constructor.
Qed.

(** C10: a request to login or register made while a viewer is already
    authenticated is answered at once by a redirect to the home timeline;
    the store is unchanged, no credential is checked, no user row is
    created and the session keeps its viewer. *)
Theorem authenticated_login_register_redirect
    (req : request) (d : database) (s : session) :
  is_Some (viewer d s) →
  (serve (login req) d s).1 = Redirect EpTimeline ∧
  left_untouched d s (serve (login req) d s).2 ∧
  (serve (register req) d s).1 = Redirect EpTimeline ∧
  left_untouched d s (serve (register req) d s).2.
Proof.
  intros Hv. rewrite !serve_run.
  rewrite login_authenticated, register_authenticated by done. cbn [fst snd].
  split_and!; try done; apply request_world_untouched.
Qed.

(** C6: for every authenticated viewer, posting the empty string as
    message text creates no message row, surfaces no error (no error
    response, nothing flashed) and completes with the normal redirect to
    the timeline. *)
Theorem empty_message_silently_dropped
    (req : request) (d : database) (s : session) :
  is_Some (session_user_id s) → req_form req !! "text" = Some "" →
  (serve (add_message req) d s).1 = Redirect EpTimeline ∧
  db (serve (add_message req) d s).2 = d ∧
  sess (serve (add_message req) d s).2 = s ∧
  Forall (λ e, is_write e = false) (trace (serve (add_message req) d s).2).
Proof.
  intros Hs Hf. rewrite serve_run, add_message_empty by done. cbn.
  split_and!; try done. destruct (session_user_id s); by repeat constructor.
Qed.


(** C3: for all user ids A and B and every database state, [is_following]
    is true right after [add_follow] and false right after
    [remove_follow]; [remove_follow] without an (A,B) edge leaves the store
    as it is; and for the authenticated viewer A and the name of B the
    follow and unfollow views run these statements and answer with a
    redirect, never an error. *)
Theorem follow_then_is_following (A B : Z) (d : database) :
  is_following A B (add_follow A B d) = true ∧
  is_following A B (remove_follow A B d) = false ∧
  (is_following A B d = false → remove_follow A B d = d) ∧
  ∀ (name : string) (s : session),
    session_user_id s = Some A → is_Some (viewer d s) →
    lookup_user_id name d = Some B →
    (serve (follow_user name) d s).1 = Redirect (EpUserTimeline name) ∧
    db (serve (follow_user name) d s).2 = add_follow A B d ∧
    (serve (unfollow_user name) d s).1 = Redirect (EpUserTimeline name) ∧
    db (serve (unfollow_user name) d s).2 = remove_follow A B d.
Proof.
  rewrite !is_following_follows. split_and!.
  - apply add_follow_follows.
  - apply remove_follow_follows.
  - apply remove_follow_absent.
  - intros name s Hs Hv Hl. rewrite !serve_run. cbn [fst snd].
    destruct (follow_user_run name (request_world d s) A B) as [-> ->];
      [done..|].
    destruct (unfollow_user_run name (request_world d s) A B) as [-> ->];
      done.
Qed.

(** C4: for every valid (username, email, password) triple with no
    existing user of that username, registration succeeds, appends one
    user row with a fresh id, and [lookup_user_id] of the username then
    returns that id; a second registration with the same username is
    answered with the username-taken error, found by the lookup that runs
    before any insert: nothing is written and the store is unchanged. *)
Theorem create_user_then_lookup_then_conflict
    (req : request) (d : database) (s : session) (name mail password : string) :
  valid_registration req name mail password → viewer d s = None →
  Forall (λ u, username u ≠ name) (user_table d) →
  let d' := db (serve (register req) d s).2 in
  (serve (register req) d s).1 = Redirect EpLogin ∧
  (∃ new : user,
     user_table d' = user_table d ++ [new] ∧
     username new = name ∧ email new = mail ∧
     pw_hash new = generate_password_hash password ∧
     Forall (λ u, user_id u ≠ user_id new) (user_table d) ∧
     lookup_user_id name d' = Some (user_id new)) ∧
  ∀ (req2 : request) (s2 : session) (mail2 password2 : string),
    valid_registration req2 name mail2 password2 → viewer d' s2 = None →
    (serve (register req2) d' s2).1 =
    RenderRegister (Some "The username is already taken") ∧
    db (serve (register req2) d' s2).2 = d' ∧
    Forall (λ e, is_write e = false) (trace (serve (register req2) d' s2).2).
Proof.
  intros Hvalid Hv Hfresh d'. subst d'. rewrite serve_run. cbn [fst snd].
  destruct (register_fresh req (request_world d s) name mail password)
    as [Hresp Hdb]; [done | done | by apply lookup_user_id_absent |].
  rewrite Hresp, Hdb. cbn [respond db request_world]. split_and!.
  - done.
  - eexists. split_and!; [done..| |by apply lookup_user_id_inserted].
    cbn. pose proof (next_rowid_fresh (user_id <$> user_table d)) as Hids.
    by rewrite Forall_fmap in Hids.
  - intros req2 s2 mail2 password2 Hvalid2 Hv2. rewrite serve_run.
    rewrite (register_taken req2 _ name mail2 password2); [|done|done|].
    + cbn. split_and!; [done..|].
      destruct (session_user_id s2); by repeat constructor.
    + cbn [db request_world]. rewrite lookup_user_id_inserted; done.
Qed.

(** C8, amended: on a store that keeps the invariants of the data model
    (user ids unique, the author of every message a user), the public
    timeline is cut from one sequence S, the unflagged messages in
    descending order of publication timestamp: for every non-negative page
    p whose offset p*30 fits a signed 64-bit integer it returns the rows at
    offsets p*30 to p*30+29 of S; with exactly 35 such messages, page 0
    returns 30 rows, page 1 the remaining 5, and no row of page 1 is more
    recent than a row of page 0. *)
Theorem public_timeline_pages (d : database) (s : session) :
  db_consistent d →
  ∃ S : list row,
    fst <$> S ≡ₚ List.filter unflagged (message_table d) ∧
    StronglySorted pub_date_desc S ∧
    (∀ (req : request) (p : Z),
       req_page req = Some p → 0 ≤ p → p * 30 ≤ 2 ^ 63 - 1 →
       (serve (public_timeline req) d s).1 =
       RenderTimeline (take 30 (drop (Z.to_nat p * 30) S)) None None) ∧
    (length (List.filter unflagged (message_table d)) = 35%nat →
     ∀ req0 req1 : request, req_page req0 = Some 0 → req_page req1 = Some 1 →
     ∃ page0 page1 : list row,
       (serve (public_timeline req0) d s).1 = RenderTimeline page0 None None ∧
       (serve (public_timeline req1) d s).1 = RenderTimeline page1 None None ∧
       length page0 = 30%nat ∧ length page1 = 5%nat ∧ page0 ++ page1 = S ∧
       ∀ r0 r1 : row, r0 ∈ page0 → r1 ∈ page1 → pub_date r1.1 ≤ pub_date r0.1).
Proof.
  intros Hd.
  set (S := order_by_pub_date_desc (List.filter where_public (cross_join d))).
  assert (fst <$> S ≡ₚ List.filter unflagged (message_table d)) as Hperm
    by by apply public_selected_messages.
  assert (∀ (req : request) (p : Z),
            req_page req = Some p → 0 ≤ p → p * 30 ≤ 2 ^ 63 - 1 →
            (serve (public_timeline req) d s).1 =
            RenderTimeline (take 30 (drop (Z.to_nat p * 30) S)) None None)
    as Hpage.
  { intros req p Hp Hp0 Hfits. apply page_arg_page in Hp.
    rewrite serve_run, public_timeline_run
      by (rewrite Hp; by apply sqlite_int_offset).
    cbn [fst respond db request_world run_query]. rewrite Hp.
    rewrite limit_offset_page. by rewrite Z2Nat.inj_mul by lia. }
  assert (StronglySorted pub_date_desc S) as Hsorted by apply order_by_sorted.
  clearbody S. exists S. split_and!; [done..|].
  intros Hlen req0 req1 Hp0 Hp1.
  assert (length S = 35%nat) as HS.
  { apply Permutation_length in Hperm. rewrite length_fmap in Hperm.
    exact (eq_trans Hperm Hlen). }
  exists (take 30 S), (drop 30 S). split_and!.
  - by rewrite (Hpage req0 0 Hp0).
  - rewrite (Hpage req1 1 Hp1) by done. cbn [Z.to_nat Pos.to_nat Pos.iter_op Nat.mul Nat.add].
    rewrite take_ge; [done|]. rewrite length_drop. lia.
  - rewrite length_take. lia.
  - rewrite length_drop. lia.
  - apply take_drop.
  - intros r0 r1. by apply sorted_pages.
Qed.

(** C1, amended: for every authenticated viewer V on a store that keeps
    the invariants of the data model, the home timeline at page 0 returns
    the first PER_PAGE = 30 rows of the unflagged messages whose author is
    V or a user V follows, in descending order of publication timestamp;
    it returns exactly those messages when there are at most 30. *)
Theorem home_timeline_first_page
    (req : request) (d : database) (s : session) (V : Z) :
  db_consistent d → session_user_id s = Some V → is_Some (viewer d s) →
  page_arg req = 0 →
  ∃ S : list row,
    fst <$> S ≡ₚ List.filter (home_visible d V) (message_table d) ∧
    StronglySorted pub_date_desc S ∧
    (serve (timeline req) d s).1 =
    RenderTimeline (take (Z.to_nat PER_PAGE) S) None None ∧
    ((length (List.filter (home_visible d V) (message_table d))
      ≤ Z.to_nat PER_PAGE)%nat →
     (serve (timeline req) d s).1 = RenderTimeline S None None).
Proof.
  intros Hd Hs Hv Hp.
  set (S := order_by_pub_date_desc (List.filter (where_home d V V) (cross_join d))).
  assert (fst <$> S ≡ₚ List.filter (home_visible d V) (message_table d)) as Hperm
    by by apply home_selected_messages.
  assert ((serve (timeline req) d s).1 =
          RenderTimeline (take (Z.to_nat PER_PAGE) S) None None) as Hpage.
  { rewrite serve_run, (timeline_authenticated req _ V)
      by (by rewrite ?Hp).
    cbn [fst respond db request_world run_query]. by rewrite Hp. }
  assert (StronglySorted pub_date_desc S) as Hsorted by apply order_by_sorted.
  clearbody S. exists S. split_and!; [done..|].
  intros Hlen. rewrite Hpage, take_ge; [done|].
  apply Permutation_length in Hperm. rewrite length_fmap in Hperm.
  exact (eq_ind_r (λ n, (n ≤ Z.to_nat PER_PAGE)%nat) Hlen Hperm).
Qed.
End properties.

(** ** Errors, frames and round trips of the views *)

Section frames.
Context `{SqlEngine} `{Werkzeug}.

Lemma serve_db (v : handler response) (d : database) (s : session) :
  db (serve v d s).2 = db (v (request_world d s)).2.
Proof. by rewrite serve_run. Qed.

Lemma serve_sess (v : handler response) (d : database) (s : session) :
  sess (serve v d s).2 = sess (v (request_world d s)).2.
Proof. by rewrite serve_run. Qed.

Lemma timeline_reads_only (req : request) (w : world) :
  db (timeline req w).2 = db w ∧ sess (timeline req w).2 = sess w.
Proof.
  unfold timeline, bind, get_g_user, session_get_user_id, query_db, ret.
  by walk.
Qed.

Lemma user_timeline_reads_only (name : string) (req : request) (w : world) :
  db (user_timeline name req w).2 = db w ∧
  sess (user_timeline name req w).2 = sess w.
Proof.
  unfold user_timeline, query_db_one, bind, get_g_user, session_get_user_id,
    query_db, ret, abort.
  by walk.
Qed.

Lemma login_keeps_store (req : request) (w : world) :
  db (login req w).2 = db w.
Proof.
  unfold login, query_db_one, bind, get_g_user, form, check_password,
    query_db, ret, flash, session_set_user_id.
  by walk.
Qed.

Lemma follow_user_anonymous (name : string) (w : world) :
  g_user w = None →
  follow_user name w = (Raised 401, w) ∧ unfollow_user name w = (Raised 401, w).
Proof.
  intros Hg. unfold follow_user, unfollow_user, bind, get_g_user, abort.
  by rewrite Hg.
Qed.

Lemma follow_user_unknown (name : string) (w : world) :
  is_Some (g_user w) → lookup_user_id name (db w) = None →
  follow_user name w = (Raised 404, log (Queried (SelectUserIdByName name)) w) ∧
  unfollow_user name w = (Raised 404, log (Queried (SelectUserIdByName name)) w).
Proof.
  intros [u Hg] Hl. unfold lookup_user_id in Hl.
  unfold follow_user, unfollow_user, get_user_id, bind, get_g_user, abort, ret,
    query_db.
  rewrite Hg. cbn -[run_query]. by rewrite Hl.
Qed.

Lemma add_message_no_session (req : request) (w : world) :
  session_user_id (sess w) = None → add_message req w = (Raised 401, w).
Proof.
  intros Hs. unfold add_message, bind, session_has_user_id, abort. by rewrite Hs.
Qed.

Lemma add_message_no_text (req : request) (w : world) :
  is_Some (session_user_id (sess w)) → req_form req !! "text" = None →
  add_message req w = (Failed (BadRequestKeyError "text"), w).
Proof.
  intros [V Hs] Hf. unfold add_message, bind, session_has_user_id, abort, form, ret.
  rewrite Hs. cbn. by rewrite Hf.
Qed.

Lemma add_message_run (req : request) (w : world) (V : Z) (body : string) :
  session_user_id (sess w) = Some V → req_form req !! "text" = Some body →
  nonempty body = true →
  (add_message req w).1 = Done (Redirect EpTimeline) ∧
  db (add_message req w).2 =
    run_statement (InsertMessage V body (req_time req)) (db w) ∧
  sess (add_message req w).2 =
    Session (Some V) (session_flashes (sess w) ++ ["Your message was recorded"]).
Proof.
  intros Hs Hf Hb.
  unfold add_message, bind, session_has_user_id, abort, form, ret,
    session_get_user_id, db_execute, db_commit, flash.
  rewrite Hs.
  by repeat (progress (cbn -[run_statement]; rewrite ?Hs, ?Hf, ?Hb)).
Qed.
End frames.

Section errors.
Context `{SqlEngine} `{Werkzeug}.

(** X1: with no authenticated viewer the follow and unfollow views answer
    with status 401 for every username, known or not; the store and the
    session stay as they were and no statement is executed. *)
Theorem follow_requires_login (name : string) (d : database) (s : session) :
  viewer d s = None →
  (serve (follow_user name) d s).1 = Abort 401 ∧
  left_untouched d s (serve (follow_user name) d s).2 ∧
  (serve (unfollow_user name) d s).1 = Abort 401 ∧
  left_untouched d s (serve (unfollow_user name) d s).2.
Proof.
  intros Hv. rewrite !serve_run.
  destruct (follow_user_anonymous name (request_world d s) Hv) as [-> ->].
  cbn [fst snd respond]. split_and!; try done; apply request_world_untouched.
Qed.

(** X2: for an authenticated viewer, following or unfollowing a username
    that no user row carries is answered with status 404 and changes
    neither the store nor the session. *)
Theorem follow_unknown_user_not_found
    (name : string) (d : database) (s : session) :
  is_Some (viewer d s) → lookup_user_id name d = None →
  (serve (follow_user name) d s).1 = Abort 404 ∧
  db (serve (follow_user name) d s).2 = d ∧
  sess (serve (follow_user name) d s).2 = s ∧
  (serve (unfollow_user name) d s).1 = Abort 404 ∧
  db (serve (unfollow_user name) d s).2 = d ∧
  sess (serve (unfollow_user name) d s).2 = s.
Proof.
  intros Hv Hl. rewrite !serve_run.
  by destruct (follow_user_unknown name (request_world d s) Hv Hl) as [-> ->].
Qed.

(** X3: adding or removing the edge (A,B) changes [is_following] for no
    other pair, and leaves the user and message tables alone. *)
Theorem follow_edge_frame (A B A' B' : Z) (d : database) :
  A' ≠ A ∨ B' ≠ B →
  is_following A' B' (add_follow A B d) = is_following A' B' d ∧
  is_following A' B' (remove_follow A B d) = is_following A' B' d ∧
  user_table (add_follow A B d) = user_table d ∧
  message_table (add_follow A B d) = message_table d ∧
  user_table (remove_follow A B d) = user_table d ∧
  message_table (remove_follow A B d) = message_table d.
Proof.
  intros Hne. rewrite !is_following_follows. unfold follows.
  split_and!; try done; apply bool_decide_ext; cbn.
  - rewrite elem_of_app, list_elem_of_singleton. split; [|by left].
    intros [Hin|Heq]; [done|]. injection Heq as HA HB. by destruct Hne.
  - rewrite !list_elem_of_In, filter_In. unfold follower_matches. cbn.
    rewrite negb_true_iff, andb_false_iff, !Z.eqb_neq.
    split; [by intros [Hin _] | by intros Hin].
Qed.

(** X4: the follow view inserts an edge every time, also when the viewer
    already follows the user: the number of (A,B) rows grows by one; one
    unfollow removes all of them. *)
Theorem follow_inserts_unfollow_clears
    (name : string) (d : database) (s : session) (A B : Z) :
  session_user_id s = Some A → is_Some (viewer d s) →
  lookup_user_id name d = Some B →
  edge_count A B (db (serve (follow_user name) d s).2) = S (edge_count A B d) ∧
  edge_count A B (db (serve (unfollow_user name) d s).2) = 0%nat.
Proof.
  intros Hs Hv Hl. rewrite !serve_db.
  destruct (follow_user_run name (request_world d s) A B) as [_ ->]; [done..|].
  destruct (unfollow_user_run name (request_world d s) A B) as [_ ->]; [done..|].
  unfold edge_count. cbn. split.
  - rewrite List.filter_app, length_app. cbn.
    unfold follower_matches at 2. cbn. rewrite !Z.eqb_refl. cbn. lia.
  - apply length_zero_iff_nil.
    induction (follower_table d) as [|f fs IH]; [done|]. cbn.
    destruct (follower_matches A B f) eqn:Hf; cbn; [done|]. by rewrite Hf.
Qed.

(** X5: posting a message without a user id in the session is answered
    with status 401 whatever the form holds; with a user id but no text
    field in the form the view raises BadRequestKeyError, which with
    DEBUG set is not turned into a 400 answer: the request ends with that
    exception unhandled; either way nothing is stored, flashed or
    executed. *)
Theorem add_message_rejects (req : request) (d : database) (s : session) :
  (session_user_id s = None →
   (serve (add_message req) d s).1 = Abort 401 ∧
   left_untouched d s (serve (add_message req) d s).2) ∧
  (is_Some (session_user_id s) → req_form req !! "text" = None →
   (serve (add_message req) d s).1 = Unhandled (BadRequestKeyError "text") ∧
   left_untouched d s (serve (add_message req) d s).2).
Proof.
  rewrite serve_run. split.
  - intros Hs. rewrite add_message_no_session by done.
    split; [done | apply request_world_untouched].
  - intros Hs Hf. rewrite add_message_no_text by done.
    split; [done | apply request_world_untouched].
Qed.

(** X6: posting a non-empty text with user id V in the session appends
    exactly one message row: author V, the text, the clock reading as
    publication date, flagged 0, and an id no earlier message has; the
    user and follower tables are unchanged, the answer is the redirect to
    the timeline and one notice is flashed. *)
Theorem add_message_records
    (req : request) (d : database) (s : session) (V : Z) (body : string) :
  session_user_id s = Some V → req_form req !! "text" = Some body →
  nonempty body = true →
  (serve (add_message req) d s).1 = Redirect EpTimeline ∧
  message_table (db (serve (add_message req) d s).2) =
    message_table d ++ [posted_message d V body (req_time req)] ∧
  Forall (λ m, message_id m ≠ message_id (posted_message d V body (req_time req)))
    (message_table d) ∧
  user_table (db (serve (add_message req) d s).2) = user_table d ∧
  follower_table (db (serve (add_message req) d s).2) = follower_table d ∧
  sess (serve (add_message req) d s).2 =
    Session (Some V) (session_flashes s ++ ["Your message was recorded"]).
Proof.
  intros Hs Hf Hb. rewrite serve_run. cbn [fst snd].
  destruct (add_message_run req (request_world d s) V body) as (-> & -> & ->);
    [done..|].
  split_and!; try done. cbn.
  pose proof (next_rowid_fresh (message_id <$> message_table d)) as Hids.
  by rewrite Forall_fmap in Hids.
Qed.
End errors.

Section posting.
Context `{SqlEngine} `{Werkzeug}.

Lemma head_filter_elem {A} (p : A → bool) (l : list A) (x : A) :
  head (List.filter p l) = Some x → x ∈ l ∧ p x = true.
Proof.
  intros Hhead. rewrite list_elem_of_In, <-filter_In.
  destruct (List.filter p l) as [|y l']; [done|].
  injection Hhead as ->. by left.
Qed.

Lemma viewer_user (d : database) (s : session) (V : Z) (u : user) :
  session_user_id s = Some V → viewer d s = Some u →
  u ∈ user_table d ∧ user_id u = V.
Proof.
  unfold viewer. intros ->. cbn. intros Hhead.
  apply head_filter_elem in Hhead as [Hu Hid]. split; [done|].
  by apply Z.eqb_eq in Hid.
Qed.

Lemma viewer_same_users (d d' : database) (s s' : session) :
  user_table d' = user_table d → session_user_id s' = session_user_id s →
  viewer d' s' = viewer d s.
Proof. unfold viewer. cbn. by intros -> ->. Qed.

(** In a sorted sequence a row strictly more recent than all others that
    carry another message comes first. *)
Lemma newest_first (S : list row) (m : message) (u : user) (old : list message) :
  StronglySorted pub_date_desc S → (m, u) ∈ S →
  Forall (λ r : row, r.1 ∈ old ++ [m]) S →
  Forall (λ m', pub_date m' < pub_date m) old →
  head (fst <$> limit_offset PER_PAGE (0 * PER_PAGE) S) = Some m.
Proof.
  intros Hsorted Hin Hall Hold. destruct S as [|r0 S']; [by apply elem_of_nil in Hin|].
  rewrite limit_offset_page. change (Z.to_nat (0 * 30)) with 0%nat. cbn. f_equal.
  apply StronglySorted_inv in Hsorted as [_ Hr0].
  apply Forall_cons in Hall as [Hfirst _].
  apply elem_of_app in Hfirst as [Hfirst|Hfirst%list_elem_of_singleton]; [|done].
  exfalso.
  pose proof (proj1 (Forall_forall _ _) Hold _ Hfirst) as Hlt. cbn in Hlt.
  apply elem_of_cons in Hin as [Heq|Hin].
  - subst r0. cbn in Hlt. lia.
  - pose proof (proj1 (Forall_forall _ _) Hr0 _ Hin) as Hle.
    unfold pub_date_desc in Hle. cbn in Hle. lia.
Qed.

Lemma selected_first (wh : row → bool) (d : database) (V : Z) (body : string)
    (t : Z) (u : user) :
  u ∈ user_table d →
  wh (posted_message d V body t, u) = true →
  Forall (λ m', pub_date m' < t) (message_table d) →
  head (fst <$> limit_offset PER_PAGE (0 * PER_PAGE)
          (order_by_pub_date_desc
             (List.filter wh
                (cross_join (run_statement (InsertMessage V body t) d))))) =
  Some (posted_message d V body t).
Proof.
  intros Hu Hwh Hold. eapply (newest_first _ _ u (message_table d)).
  - apply order_by_sorted.
  - rewrite order_by_perm. apply list_elem_of_In, filter_In. split; [|done].
    apply list_elem_of_In, elem_of_cross_join. cbn. split; [|done].
    apply elem_of_app. right. by apply list_elem_of_singleton.
  - apply Forall_forall. intros r Hr. rewrite order_by_perm in Hr.
    apply list_elem_of_In, filter_In in Hr as [Hr _].
    by apply list_elem_of_In, elem_of_cross_join in Hr as [Hr _].
  - done.
Qed.

(** X7: when an authenticated viewer V posts a non-empty text at a clock
    reading later than every stored publication date, the new message is
    the first row of page 0 of the public timeline, for any session, and
    of page 0 of the home timeline of V. *)
Theorem posted_message_tops_timelines
    (req : request) (d : database) (s : session) (V : Z) (body : string) :
  session_user_id s = Some V → is_Some (viewer d s) →
  req_form req !! "text" = Some body → nonempty body = true →
  Forall (λ m, pub_date m < req_time req) (message_table d) →
  ∀ (req' : request) (s' : session), page_arg req' = 0 →
    head (fst <$> response_messages
            (serve (public_timeline req')
               (db (serve (add_message req) d s).2) s').1) =
    Some (posted_message d V body (req_time req)) ∧
    (session_user_id s' = Some V →
     head (fst <$> response_messages
             (serve (timeline req')
                (db (serve (add_message req) d s).2) s').1) =
     Some (posted_message d V body (req_time req))).
Proof.
  intros Hs [u Hv] Hf Hb Hold req' s' Hp.
  destruct (viewer_user d s V u Hs Hv) as [Hu Hid].
  rewrite serve_db.
  destruct (add_message_run req (request_world d s) V body) as (_ & -> & _);
    [done..|].
  cbn [db request_world]. rewrite !serve_run. cbn [fst]. split.
  - rewrite public_timeline_run by (by rewrite Hp).
    cbn [respond response_messages run_query db request_world].
    rewrite Hp. apply (selected_first _ d V body (req_time req) u); [done| |done].
    unfold where_public. cbn. by rewrite Hid, Z.eqb_refl.
  - intros Hs'.
    rewrite (timeline_authenticated req' _ V); [| |done|by rewrite Hp].
    + cbn [respond response_messages run_query db request_world].
      rewrite Hp. apply (selected_first _ d V body (req_time req) u); [done| |done].
      unfold where_home. cbn. by rewrite Hid, !Z.eqb_refl.
    + cbn [g_user request_world].
      rewrite (viewer_same_users d _ s s'); [by eexists|done|congruence].
Qed.

(** X8: [add_message] only asks for a user id in the session.  When that
    id belongs to no user row, a non-empty post is still stored and
    answered with the usual redirect, but the new message is in no page of
    any timeline of the resulting store, which no longer keeps the
    invariants of the data model. *)
Theorem stale_session_post_is_hidden
    (req : request) (d : database) (s : session) (V : Z) (body : string) :
  session_user_id s = Some V → V ∉ user_id <$> user_table d →
  req_form req !! "text" = Some body → nonempty body = true →
  (serve (add_message req) d s).1 = Redirect EpTimeline ∧
  posted_message d V body (req_time req) ∈
    message_table (db (serve (add_message req) d s).2) ∧
  ¬ db_consistent (db (serve (add_message req) d s).2) ∧
  ∀ (req' : request) (s' : session) (name : string),
    (posted_message d V body (req_time req) ∉
       fst <$> response_messages
         (serve (timeline req') (db (serve (add_message req) d s).2) s').1) ∧
    (posted_message d V body (req_time req) ∉
       fst <$> response_messages
         (serve (public_timeline req') (db (serve (add_message req) d s).2) s').1) ∧
    (posted_message d V body (req_time req) ∉
       fst <$> response_messages
         (serve (user_timeline name req') (db (serve (add_message req) d s).2) s').1).
Proof.
  intros Hs Hstale Hf Hb. rewrite !serve_run. cbn [fst snd].
  destruct (add_message_run req (request_world d s) V body) as (-> & -> & _);
    [done..|].
  cbn [db request_world respond].
  set (d' := run_statement (InsertMessage V body (req_time req)) d).
  assert (posted_message d V body (req_time req) ∈ message_table d') as Hin.
  { cbn. apply elem_of_app. right. by apply list_elem_of_singleton. }
  assert (∀ rows, Forall (joined_unflagged d') rows →
                  posted_message d V body (req_time req) ∉ fst <$> rows) as Hnot.
  { intros rows Hrows Hm. apply list_elem_of_fmap in Hm as (r & Hr1 & Hr).
    destruct (proj1 (Forall_forall _ _) Hrows r Hr) as (_ & Hu & _ & Ha).
    apply Hstale. apply list_elem_of_fmap. exists r.2. split; [|done].
    rewrite Ha, <-Hr1. done. }
  split_and!; [done | done | |].
  - intros [_ Hall]. apply Hstale.
    by apply (proj1 (Forall_forall _ _) Hall _ Hin).
  - intros req' s' name. rewrite !serve_run. cbn [fst]. split_and!; apply Hnot.
    + apply (timeline_rows req' (request_world d' s')).
    + apply (public_timeline_rows req' (request_world d' s')).
    + apply (user_timeline_rows name req' (request_world d' s')).
Qed.
End posting.

Section accounts.
Context `{SqlEngine} `{Werkzeug}.

Lemma login_unknown (req : request) (d : database) (s : session) (name : string) :
  viewer d s = None → req_method req = POST →
  req_form req !! "username" = Some name → lookup_user_by_name name d = None →
  serve (login req) d s =
  (RenderLogin (Some "Invalid username"),
   log (Queried (SelectUserByName name)) (request_world d s)).
Proof.
  intros Hv Hm Hn Hl. unfold lookup_user_by_name in Hl. rewrite serve_run.
  unfold login, query_db_one, bind, get_g_user, form, query_db, ret.
  cbn [g_user request_world]. rewrite Hv, Hm. by run.
Qed.

Lemma login_checked (req : request) (d : database) (s : session)
    (name pw : string) (u : user) :
  viewer d s = None → req_method req = POST →
  req_form req !! "username" = Some name → lookup_user_by_name name d = Some u →
  req_form req !! "password" = Some pw →
  db (serve (login req) d s).2 = d ∧
  (check_password_hash (pw_hash u) pw = false →
   (serve (login req) d s).1 = RenderLogin (Some "Invalid password") ∧
   sess (serve (login req) d s).2 = s) ∧
  (check_password_hash (pw_hash u) pw = true →
   (serve (login req) d s).1 = Redirect EpTimeline ∧
   sess (serve (login req) d s).2 =
     Session (Some (user_id u)) (session_flashes s ++ ["You were logged in"])).
Proof.
  intros Hv Hm Hn Hl Hp. unfold lookup_user_by_name in Hl. rewrite serve_run.
  unfold login, query_db_one, bind, get_g_user, form, query_db, ret,
    check_password, flash, session_set_user_id.
  cbn [g_user request_world]. rewrite Hv, Hm.
  split_and!; [|intros Hc..]; run; try done.
  by destruct (check_password_hash (pw_hash u) pw).
Qed.

(** X9: a login POST from an unauthenticated viewer is answered with the
    invalid-username error when no user row carries the name, with the
    invalid-password error when the password helper rejects the password
    against the stored hash, and otherwise with the redirect to the
    timeline and the user's id in the session; the failures leave the
    session as it was, and the store is never changed. *)
Theorem login_outcomes (req : request) (d : database) (s : session) (name : string) :
  viewer d s = None → req_method req = POST →
  req_form req !! "username" = Some name →
  (lookup_user_by_name name d = None →
   (serve (login req) d s).1 = RenderLogin (Some "Invalid username") ∧
   db (serve (login req) d s).2 = d ∧ sess (serve (login req) d s).2 = s ∧
   Forall (λ e, match e with PasswordChecked _ _ => False | _ => True end)
     (trace (serve (login req) d s).2)) ∧
  (∀ (u : user) (pw : string),
     lookup_user_by_name name d = Some u → req_form req !! "password" = Some pw →
     db (serve (login req) d s).2 = d ∧
     (check_password_hash (pw_hash u) pw = false →
      (serve (login req) d s).1 = RenderLogin (Some "Invalid password") ∧
      sess (serve (login req) d s).2 = s) ∧
     (check_password_hash (pw_hash u) pw = true →
      (serve (login req) d s).1 = Redirect EpTimeline ∧
      sess (serve (login req) d s).2 =
        Session (Some (user_id u)) (session_flashes s ++ ["You were logged in"]))).
Proof.
  intros Hv Hm Hn. split.
  - intros Hl. rewrite (login_unknown req d s name) by done. cbn.
    split_and!; try done. destruct (session_user_id s); by repeat constructor.
  - intros u pw Hl Hp. by apply (login_checked req d s name pw u).
Qed.

(** X10: whatever the request and the state, login never changes the
    store, and it leaves the session exactly as it was unless the form
    names a user row of the store whose stored hash the password helper
    accepts for the submitted password; then the session carries that
    user's id. *)
Theorem login_changes_session_only_on_match
    (req : request) (d : database) (s : session) :
  db (serve (login req) d s).2 = d ∧
  (sess (serve (login req) d s).2 = s ∨
   ∃ (u : user) (pw : string),
     u ∈ user_table d ∧
     req_form req !! "username" = Some (username u) ∧
     req_form req !! "password" = Some pw ∧
     check_password_hash (pw_hash u) pw = true ∧
     session_user_id (sess (serve (login req) d s).2) = Some (user_id u)).
Proof.
  split; [rewrite serve_db; apply login_keeps_store|].
  rewrite serve_sess.
  unfold login, query_db_one, bind, get_g_user, form, check_password,
    query_db, ret, flash, session_set_user_id.
  walk; try (by left).
  right.
  match goal with
  | Hhead : head (run_query (SelectUserByName ?name) _) = Some ?u,
    Hcheck : negb (check_password_hash _ ?pw) = false |- _ =>
      cbn [run_query] in Hhead;
      apply head_filter_elem in Hhead as [Hu Hname%String.eqb_eq];
      apply negb_false_iff in Hcheck;
      exists u, pw; subst name
  end.
  by split_and!.
Qed.

Lemma lookup_user_by_name_inserted (name mail hash : string) (d : database) :
  Forall (λ u, username u ≠ name) (user_table d) →
  lookup_user_by_name name (run_statement (InsertUser name mail hash) d) =
  Some (User (next_rowid (user_id <$> user_table d)) name mail hash).
Proof.
  unfold lookup_user_by_name. cbn. intros Hall. rewrite List.filter_app. cbn.
  rewrite String.eqb_refl.
  replace (List.filter _ (user_table d)) with (@nil user); [done|].
  symmetry. induction Hall as [|u us Hu _ IH]; [done|]. cbn.
  by rewrite (proj2 (String.eqb_neq _ _) Hu).
Qed.

(** X11: after a successful registration of a fresh username with
    password pw, a login POST with that username succeeds exactly when the
    password helper accepts the submitted password against the hash it
    generated for pw: then the session carries the id [lookup_user_id]
    returns for the username; otherwise the answer is the
    invalid-password error and the session is unchanged. *)
Theorem register_then_login
    (req : request) (d : database) (s : session) (name mail pw : string) :
  valid_registration req name mail pw → viewer d s = None →
  Forall (λ u, username u ≠ name) (user_table d) →
  ∀ (req2 : request) (s2 : session) (pw2 : string),
    viewer (db (serve (register req) d s).2) s2 = None →
    req_method req2 = POST →
    req_form req2 !! "username" = Some name →
    req_form req2 !! "password" = Some pw2 →
    (check_password_hash (generate_password_hash pw) pw2 = true →
     (serve (login req2) (db (serve (register req) d s).2) s2).1 =
       Redirect EpTimeline ∧
     session_user_id
       (sess (serve (login req2) (db (serve (register req) d s).2) s2).2) =
       lookup_user_id name (db (serve (register req) d s).2)) ∧
    (check_password_hash (generate_password_hash pw) pw2 = false →
     (serve (login req2) (db (serve (register req) d s).2) s2).1 =
       RenderLogin (Some "Invalid password") ∧
     sess (serve (login req2) (db (serve (register req) d s).2) s2).2 = s2).
Proof.
  intros Hvalid Hv Hfresh req2 s2 pw2. rewrite serve_db.
  destruct (register_fresh req (request_world d s) name mail pw)
    as [_ ->]; [done | done | by apply lookup_user_id_absent |].
  cbn [db request_world]. intros Hv2 Hm Hn Hp.
  pose proof (lookup_user_by_name_inserted name mail (generate_password_hash pw)
                d Hfresh) as Hl.
  destruct (login_checked req2 _ s2 name pw2 _ Hv2 Hm Hn Hl Hp)
    as (_ & Hbad & Hgood).
  cbn [pw_hash user_id] in Hbad, Hgood. split.
  - intros Hc. destruct (Hgood Hc) as [-> ->]. split; [done|].
    by rewrite lookup_user_id_inserted.
  - intros Hc. by destruct (Hbad Hc) as [-> ->].
Qed.

(** X12: a registration POST from an unauthenticated viewer is rejected,
    in this order, for an empty username, for an email that is empty or
    has no "@", for an empty password, and for two passwords that differ;
    each rejection renders the form with its message and leaves the store
    and the session untouched, with no lookup and no hashing done. *)
Theorem register_rejections (req : request) (d : database) (s : session) :
  viewer d s = None → req_method req = POST →
  (req_form req !! "username" = Some "" →
   serve (register req) d s =
   (RenderRegister (Some "You have to enter a username"), request_world d s)) ∧
  (∀ name mail : string,
     req_form req !! "username" = Some name → nonempty name = true →
     req_form req !! "email" = Some mail →
     (nonempty mail = false ∨ contains_at mail = false →
      serve (register req) d s =
      (RenderRegister (Some "You have to enter a valid email address"),
       request_world d s)) ∧
     (nonempty mail = true → contains_at mail = true →
      (req_form req !! "password" = Some "" →
       serve (register req) d s =
       (RenderRegister (Some "You have to enter a password"), request_world d s)) ∧
      (∀ pw pw2 : string,
         req_form req !! "password" = Some pw → nonempty pw = true →
         req_form req !! "password2" = Some pw2 → pw ≠ pw2 →
         serve (register req) d s =
         (RenderRegister (Some "The two passwords do not match"),
          request_world d s)))).
Proof.
  intros Hv Hm. rewrite serve_run.
  unfold register, get_user_id, bind, get_g_user, ret, query_db, form,
    hash_password, db_execute, db_commit, flash.
  cbn [g_user request_world]. rewrite Hv, Hm. split.
  - intros Hn. by run.
  - intros name mail Hn Hne He. split.
    + intros [Hmail|Hat]; run; [done|].
      by destruct (nonempty mail); run.
    + intros Hmail Hat. split.
      * intros Hp. by run.
      * intros pw pw2 Hp Hpn Hp2 Hneq%String.eqb_neq. by run.
Qed.

(** X13: whatever the request and the state, register either leaves the
    store exactly as it was, or the viewer was not authenticated, the form
    was a valid registration whose username no user row carried, and the
    store gained the one user row for it. *)
Theorem register_writes_only_when_valid
    (req : request) (d : database) (s : session) :
  db (serve (register req) d s).2 = d ∨
  ∃ name mail pw : string,
    valid_registration req name mail pw ∧ viewer d s = None ∧
    lookup_user_id name d = None ∧
    db (serve (register req) d s).2 =
    run_statement (InsertUser name mail (generate_password_hash pw)) d.
Proof.
  rewrite serve_db.
  unfold register, get_user_id, bind, get_g_user, ret, query_db, form,
    hash_password, db_execute, db_commit, flash.
  walk; try (by left).
  right.
  repeat match goal with
         | Hb : negb _ = false |- _ => apply negb_false_iff in Hb
         | Hb : bool_decide _ = false |- _ => apply bool_decide_eq_false in Hb
         end.
  match goal with
  | Hu : req_form req !! "username" = Some ?name,
    He : req_form req !! "email" = Some ?mail,
    Hp : req_form req !! "password" = Some ?pw |- _ => exists name, mail, pw
  end.
  match goal with
  | Heq : (_ =? _)%string = true |- _ => apply String.eqb_eq in Heq; subst
  end.
  unfold valid_registration, lookup_user_id.
  split_and!; try done.
  - by apply eq_None_not_Some.
  - by apply eq_None_not_Some.
Qed.

(** X14: logout always answers with the redirect to the public timeline,
    logged in or not; it drops the user id from the session, flashes one
    notice and leaves the store alone; with the resulting session the
    viewer is anonymous: the home view redirects to the public timeline
    and following is refused with status 401. *)
Theorem logout_clears_viewer (d : database) (s : session) (req : request)
    (name : string) :
  (serve logout d s).1 = Redirect EpPublicTimeline ∧
  db (serve logout d s).2 = d ∧
  sess (serve logout d s).2 =
    Session None (session_flashes s ++ ["You were logged out"]) ∧
  viewer d (sess (serve logout d s).2) = None ∧
  (serve (timeline req) d (sess (serve logout d s).2)).1 =
    Redirect EpPublicTimeline ∧
  (serve (follow_user name) d (sess (serve logout d s).2)).1 = Abort 401.
Proof.
  rewrite !serve_run. cbn [fst snd respond].
  assert (sess (logout (request_world d s)).2 =
          Session None (session_flashes s ++ ["You were logged out"])) as ->
    by done.
  by split_and!.
Qed.
End accounts.

Section profiles.
Context `{SqlEngine} `{Werkzeug}.

Lemma user_timeline_known (name : string) (req : request) (d : database)
    (s : session) (pu : user) :
  lookup_user_by_name name d = Some pu →
  sqlite_int (page_arg req * PER_PAGE) = true →
  ∃ followed : bool,
    (serve (user_timeline name req) d s).1 =
    RenderTimeline
      (run_query (SelectProfile (user_id pu) PER_PAGE (page_arg req * PER_PAGE)) d)
      (Some followed) (Some pu) ∧
    (viewer d s = None → followed = false) ∧
    (∀ V, session_user_id s = Some V → is_Some (viewer d s) →
          followed = is_following V (user_id pu) d).
Proof.
  intros Hl Hfits. unfold lookup_user_by_name in Hl. rewrite serve_run.
  pose proof sqlite_int_PER_PAGE as Hlimit.
  unfold user_timeline, query_db_one, bind, get_g_user, session_get_user_id,
    query_db, ret, abort, is_following.
  cbn [g_user request_world]. run.
  destruct (viewer d s) as [u|] eqn:Hv; run.
  - pose proof Hv as Hv'. unfold viewer in Hv'.
    destruct (session_user_id s) as [V|] eqn:Hs; [|done]. run.
    eexists. split_and!; [done | done |].
    intros V' HV' _. by injection HV' as ->.
  - eexists. split_and!; [done | done |]. by intros V _ [? ?].
Qed.

(** X15: the profile view of a username that no user row carries is
    answered with status 404; no timeline query is run and neither the
    store nor the session changes. *)
Theorem user_timeline_unknown_not_found
    (name : string) (req : request) (d : database) (s : session) :
  lookup_user_by_name name d = None →
  (serve (user_timeline name req) d s).1 = Abort 404 ∧
  db (serve (user_timeline name req) d s).2 = d ∧
  sess (serve (user_timeline name req) d s).2 = s ∧
  Forall (λ e, is_timeline_query e = false)
    (trace (serve (user_timeline name req) d s).2).
Proof.
  intros Hl. unfold lookup_user_by_name in Hl. rewrite serve_run.
  unfold user_timeline, query_db_one, bind, get_g_user, session_get_user_id,
    query_db, ret, abort.
  run. split_and!; try done.
  destruct (session_user_id s); by repeat constructor.
Qed.

(** X16: the row the profile view finds for a username is a user row of
    the store with that name; when the offset of the requested page fits a
    signed 64-bit integer the view renders that row as [profile_user],
    every returned row is a message written by that user, and [followed]
    is false for an anonymous viewer and is [is_following] of the viewer
    and the profile user otherwise. *)
Theorem user_timeline_profile
    (name : string) (req : request) (d : database) (s : session) (pu : user) :
  lookup_user_by_name name d = Some pu →
  sqlite_int (page_arg req * PER_PAGE) = true →
  pu ∈ user_table d ∧ username pu = name ∧
  ∃ (rows : list row) (followed : bool),
    (serve (user_timeline name req) d s).1 =
      RenderTimeline rows (Some followed) (Some pu) ∧
    Forall (λ r : row, author_id r.1 = user_id pu ∧ user_id r.2 = user_id pu) rows ∧
    (viewer d s = None → followed = false) ∧
    (∀ V, session_user_id s = Some V → is_Some (viewer d s) →
          followed = is_following V (user_id pu) d).
Proof.
  intros Hl Hfits. split_and!.
  - unfold lookup_user_by_name in Hl. cbn [run_query] in Hl.
    by apply head_filter_elem in Hl as [Hu _].
  - unfold lookup_user_by_name in Hl. cbn [run_query] in Hl.
    apply head_filter_elem in Hl as [_ Hn]. by apply String.eqb_eq in Hn.
  - destruct (user_timeline_known name req d s pu Hl Hfits)
      as (followed & Hresp & Hf).
    eexists _, followed. split_and!; [exact Hresp | | apply Hf..].
    apply Forall_forall. intros r Hr.
    apply page_of_selected in Hr as [Hwh _]. unfold where_profile in Hwh.
    apply andb_true_iff in Hwh as [Hwh Hid].
    apply andb_true_iff in Hwh as [_ Ha]. apply Z.eqb_eq in Hid, Ha.
    split; congruence.
Qed.

(** X17: on a store that keeps the invariants of the data model, the
    profile view of an existing user is cut from one sequence S, that
    user's unflagged messages in descending order of publication date:
    page p, non-negative and with an offset p*30 that fits a signed 64-bit
    integer, is rendered with the rows at offsets p*30 to p*30+29 of S. *)
Theorem user_timeline_pages
    (name : string) (d : database) (s : session) (pu : user) :
  db_consistent d → lookup_user_by_name name d = Some pu →
  ∃ S : list row,
    fst <$> S ≡ₚ
      List.filter (λ m, unflagged m && (author_id m =? user_id pu)) (message_table d) ∧
    StronglySorted pub_date_desc S ∧
    ∀ (req : request) (p : Z),
      req_page req = Some p → 0 ≤ p → p * 30 ≤ 2 ^ 63 - 1 →
      ∃ followed : bool,
        (serve (user_timeline name req) d s).1 =
        RenderTimeline (take 30 (drop (Z.to_nat p * 30) S))
          (Some followed) (Some pu).
Proof.
  intros Hd Hl.
  exists (order_by_pub_date_desc
            (List.filter (where_profile (user_id pu)) (cross_join d))).
  split_and!; [by apply profile_selected_messages | apply order_by_sorted |].
  intros req p Hp Hp0 Hfits. apply page_arg_page in Hp.
  destruct (user_timeline_known name req d s pu Hl) as (followed & -> & _);
    [rewrite Hp; by apply sqlite_int_offset|].
  exists followed. cbn [run_query]. rewrite Hp, limit_offset_page.
  by rewrite Z2Nat.inj_mul by lia.
Qed.
End profiles.

Section pages.
Context `{SqlEngine} `{Werkzeug}.

Lemma limit_offset_length {A} (offset : Z) (l : list A) :
  (length (limit_offset PER_PAGE offset l) ≤ 30)%nat.
Proof.
  unfold limit_offset. change (PER_PAGE <? 0) with false.
  change (Z.to_nat PER_PAGE) with 30%nat. cbn beta iota zeta.
  rewrite length_take. lia.
Qed.

Lemma timeline_page_length (req : request) (w : world) :
  (length (response_messages (respond (timeline req w).1)) ≤ 30)%nat.
Proof.
  unfold timeline, bind, get_g_user, session_get_user_id, query_db, ret.
  walk; cbn [run_query]; first [apply limit_offset_length | lia].
Qed.

Lemma user_timeline_page_length (name : string) (req : request) (w : world) :
  (length (response_messages (respond (user_timeline name req w).1)) ≤ 30)%nat.
Proof.
  unfold user_timeline, query_db_one, bind, get_g_user, session_get_user_id,
    query_db, ret, abort.
  walk; cbn [run_query]; first [apply limit_offset_length | lia].
Qed.

(** X18: in every state and for every page number, each of the three
    timeline views hands at most PER_PAGE = 30 rows to the template. *)
Theorem timeline_pages_hold_at_most_30
    (name : string) (req : request) (d : database) (s : session) :
  (length (response_messages (serve (timeline req) d s).1) ≤ 30)%nat ∧
  (length (response_messages (serve (public_timeline req) d s).1) ≤ 30)%nat ∧
  (length (response_messages (serve (user_timeline name req) d s).1) ≤ 30)%nat.
Proof.
  rewrite !serve_run. cbn [fst]. split_and!.
  - apply timeline_page_length.
  - destruct (sqlite_int (page_arg req * PER_PAGE)) eqn:Hfits.
    + rewrite public_timeline_run by done.
      cbn [respond response_messages run_query]. apply limit_offset_length.
    + rewrite public_timeline_overflow by done. cbn. lia.
  - apply user_timeline_page_length.
Qed.

(** X19: the page number of the public timeline is not validated.  While
    the offset p*30 fits a signed 64-bit integer, a negative page shows
    what page 0 shows and, on a store that keeps the invariants of the data
    model, a page that starts at or past the number of unflagged messages
    is rendered with no rows.  When the offset does not fit, binding it
    raises OverflowError before any query runs: with DEBUG set the request
    ends with that exception unhandled, the store and the session as they
    were. *)
Theorem public_timeline_page_out_of_range
    (req : request) (d : database) (s : session) (p : Z) :
  req_page req = Some p →
  (- 2 ^ 63 ≤ p * 30 → p ≤ 0 →
   ∀ req0 : request, page_arg req0 = 0 →
     (serve (public_timeline req) d s).1 = (serve (public_timeline req0) d s).1) ∧
  (- 2 ^ 63 ≤ p * 30 → p * 30 ≤ 2 ^ 63 - 1 → db_consistent d →
   (length (List.filter unflagged (message_table d)) ≤ Z.to_nat p * 30)%nat →
   (serve (public_timeline req) d s).1 = RenderTimeline [] None None) ∧
  (p * 30 < - 2 ^ 63 ∨ 2 ^ 63 - 1 < p * 30 →
   (serve (public_timeline req) d s).1 = Unhandled OverflowError ∧
   db (serve (public_timeline req) d s).2 = d ∧
   sess (serve (public_timeline req) d s).2 = s ∧
   Forall (λ e, is_timeline_query e = false)
     (trace (serve (public_timeline req) d s).2)).
Proof.
  intros Hp. apply page_arg_page in Hp as Hpage. split_and!.
  - intros Hlow Hneg req0 Hp0.
    rewrite !serve_run, !public_timeline_run;
      [|by rewrite Hp0|rewrite Hpage; apply sqlite_int_spec; unfold PER_PAGE; lia].
    cbn [fst respond db request_world run_query]. rewrite Hp0, Hpage.
    rewrite !limit_offset_page. do 3 f_equal. lia.
  - intros Hlow Hhigh Hd Hlen.
    rewrite serve_run, public_timeline_run
      by (rewrite Hpage; by apply sqlite_int_spec).
    cbn [fst respond db request_world run_query]. rewrite Hpage.
    rewrite limit_offset_page.
    pose proof (Permutation_length (public_selected_messages d Hd)) as Hperm.
    rewrite length_fmap in Hperm.
    rewrite drop_ge; [done|].
    assert (0 ≤ p ∨ p < 0) as [Hp0|Hp0] by lia.
    + rewrite Z2Nat.inj_mul by lia. change (Z.to_nat 30) with 30%nat.
      exact (eq_ind_r (λ n, (n ≤ Z.to_nat p * 30)%nat) Hlen Hperm).
    + replace (Z.to_nat p) with 0%nat in Hlen by lia.
      exact (eq_ind_r (λ n, (n ≤ Z.to_nat (p * 30))%nat)
               (Nat.le_trans _ _ _ Hlen (Nat.le_0_l _)) Hperm).
  - intros Hout. rewrite serve_run, public_timeline_overflow.
    + cbn. split_and!; try done.
      destruct (session_user_id s); by repeat constructor.
    + rewrite Hpage. apply not_true_is_false. rewrite sqlite_int_spec.
      unfold PER_PAGE. lia.
Qed.
End pages.

Section routes.
Context `{SqlEngine} `{Werkzeug}.

Lemma public_timeline_reads_only (req : request) (w : world) :
  db (public_timeline req w).2 = db w ∧ sess (public_timeline req w).2 = sess w.
Proof.
  destruct (sqlite_int (page_arg req * PER_PAGE)) eqn:Hfits.
  - by rewrite public_timeline_run.
  - by rewrite public_timeline_overflow.
Qed.

(** What a request can do to the store: nothing, or the one statement of
    the view it is routed to. *)
Lemma view_store (r : route) (req : request) (w : world) :
  db (view r req w).2 = db w ∨
  (r = RRegister ∧
   ∃ name mail hash : string,
     db (view r req w).2 = run_statement (InsertUser name mail hash) (db w)) ∨
  (∃ (name : string) (V B : Z),
     r = RFollowUser name ∧ session_user_id (sess w) = Some V ∧
     db (view r req w).2 = run_statement (InsertFollower V B) (db w)) ∨
  (∃ (name : string) (V B : Z),
     r = RUnfollowUser name ∧ session_user_id (sess w) = Some V ∧
     db (view r req w).2 = run_statement (DeleteFollower V B) (db w)) ∨
  (∃ (V : Z) (body : string) (t : Z),
     r = RAddMessage ∧ session_user_id (sess w) = Some V ∧
     db (view r req w).2 = run_statement (InsertMessage V body t) (db w)).
Proof.
  unfold view. destruct (allows r (req_method req)); [|by left].
  cbn [negb]. destruct r.
  - left. apply timeline_reads_only.
  - left. apply public_timeline_reads_only.
  - left. apply user_timeline_reads_only.
  - unfold follow_user, get_user_id, bind, get_g_user, abort, ret, query_db,
      session_get_user_id, db_execute, db_commit, flash.
    walk; try (by left). right. right. left. by eexists _, _, _.
  - unfold unfollow_user, get_user_id, bind, get_g_user, abort, ret, query_db,
      session_get_user_id, db_execute, db_commit, flash.
    walk; try (by left). right. right. right. left. by eexists _, _, _.
  - unfold add_message, bind, session_has_user_id, abort, form, ret,
      session_get_user_id, db_execute, db_commit, flash.
    walk; try (by left). do 4 right. by eexists _, _, _.
  - left. apply login_keeps_store.
  - unfold register, get_user_id, bind, get_g_user, ret, query_db, form,
      hash_password, db_execute, db_commit, flash.
    walk; try (by left). right. left. split; [done|]. by eexists _, _, _.
  - by left.
Qed.

Lemma view_session (r : route) (req : request) (w : world) :
  r ≠ RLogin → r ≠ RLogout →
  session_user_id (sess (view r req w).2) = session_user_id (sess w).
Proof.
  intros Hlogin Hlogout. unfold view.
  destruct (allows r (req_method req)); [|done]. cbn [negb]. destruct r; try done.
  - by destruct (timeline_reads_only req w) as [_ ->].
  - by destruct (public_timeline_reads_only req w) as [_ ->].
  - by destruct (user_timeline_reads_only name req w) as [_ ->].
  - unfold follow_user, get_user_id, bind, get_g_user, abort, ret, query_db,
      session_get_user_id, db_execute, db_commit, flash.
    by walk.
  - unfold unfollow_user, get_user_id, bind, get_g_user, abort, ret, query_db,
      session_get_user_id, db_execute, db_commit, flash.
    by walk.
  - unfold add_message, bind, session_has_user_id, abort, form, ret,
      session_get_user_id, db_execute, db_commit, flash.
    by walk.
  - unfold register, get_user_id, bind, get_g_user, ret, query_db, form,
      hash_password, db_execute, db_commit, flash.
    by walk.
Qed.

(** X20: the three timeline views only read: for every request and every
    state, whatever they answer, the store and the session (user id and
    flashed messages) are the ones the request came with. *)
Theorem timeline_views_read_only
    (name : string) (req : request) (d : database) (s : session) :
  db (serve (timeline req) d s).2 = d ∧
  sess (serve (timeline req) d s).2 = s ∧
  db (serve (public_timeline req) d s).2 = d ∧
  sess (serve (public_timeline req) d s).2 = s ∧
  db (serve (user_timeline name req) d s).2 = d ∧
  sess (serve (user_timeline name req) d s).2 = s.
Proof.
  rewrite !serve_db, !serve_sess.
  destruct (timeline_reads_only req (request_world d s)) as [-> ->].
  destruct (public_timeline_reads_only req (request_world d s)) as [-> ->].
  destruct (user_timeline_reads_only name req (request_world d s)) as [-> ->].
  by split_and!.
Qed.

(** X21: no request, on any route, edits or deletes a user or a message:
    after the request the user table and the message table start with the
    rows they had before. *)
Theorem users_and_messages_append_only
    (r : route) (req : request) (d : database) (s : session) :
  user_table d `prefix_of` user_table (db (serve (view r req) d s).2) ∧
  message_table d `prefix_of` message_table (db (serve (view r req) d s).2).
Proof.
  rewrite serve_db.
  destruct (view_store r req (request_world d s))
    as [-> | [(_ & ? & ? & ? & ->) | [(? & ? & ? & _ & _ & ->) |
        [(? & ? & ? & _ & _ & ->) | (? & ? & ? & _ & _ & ->)]]]];
    cbn; split; try done; by apply prefix_app_r.
Qed.

(** X22: a request whose session carries no user id cannot touch the
    follower table or the message table, on any route and with any form. *)
Theorem writes_need_session_user
    (r : route) (req : request) (d : database) (s : session) :
  session_user_id s = None →
  follower_table (db (serve (view r req) d s).2) = follower_table d ∧
  message_table (db (serve (view r req) d s).2) = message_table d.
Proof.
  intros Hs. rewrite serve_db.
  destruct (view_store r req (request_world d s))
    as [-> | [(_ & ? & ? & ? & ->) | [(? & ? & ? & _ & Hs' & _) |
        [(? & ? & ? & _ & Hs' & _) | (? & ? & ? & _ & Hs' & _)]]]];
    cbn in *; by try congruence.
Qed.

(** X23: each table has its one writer: only the register route changes
    the user table, only the follow and unfollow routes change the
    follower table, only the add-message route changes the message table,
    and only login and logout change the user id of the session. *)
Theorem tables_change_only_by_their_route
    (r : route) (req : request) (d : database) (s : session) :
  (r ≠ RRegister →
   user_table (db (serve (view r req) d s).2) = user_table d) ∧
  ((∀ name, r ≠ RFollowUser name ∧ r ≠ RUnfollowUser name) →
   follower_table (db (serve (view r req) d s).2) = follower_table d) ∧
  (r ≠ RAddMessage →
   message_table (db (serve (view r req) d s).2) = message_table d) ∧
  (r ≠ RLogin → r ≠ RLogout →
   session_user_id (sess (serve (view r req) d s).2) = session_user_id s).
Proof.
  rewrite serve_db, serve_sess.
  split_and!; [| | |by apply view_session];
    destruct (view_store r req (request_world d s))
      as [-> | [(Hr & ? & ? & ? & ->) | [(n & ? & ? & Hr & _ & ->) |
          [(n & ? & ? & Hr & _ & ->) | (? & ? & ? & Hr & _ & ->)]]]];
    cbn; try done.
  - intros Hall. by destruct (Hall n) as [? _].
  - intros Hall. by destruct (Hall n) as [_ ?].
Qed.

(** X24: every request, on any route, keeps user ids unique; and when
    the session's user id, if any, is the id of a user row, every request
    keeps both invariants of the data model (unique user ids, every
    message's author a user). *)
Theorem requests_keep_invariants
    (r : route) (req : request) (d : database) (s : session) :
  (NoDup (user_id <$> user_table d) →
   NoDup (user_id <$> user_table (db (serve (view r req) d s).2))) ∧
  (db_consistent d → session_refers_to_user d s →
   db_consistent (db (serve (view r req) d s).2)).
Proof.
  rewrite serve_db.
  destruct (view_store r req (request_world d s))
    as [-> | [(_ & name & mail & hash & ->) | [(? & V & B & _ & _ & ->) |
        [(? & V & B & _ & _ & ->) | (V & body & t & _ & Hs & ->)]]]];
    cbn [db request_world sess] in *.
  - done.
  - split; [|intros Hd _; by apply insert_user_consistent].
    intros Hnd. cbn. rewrite fmap_app. apply NoDup_app.
    split_and!; [done| |by apply NoDup_singleton].
    intros i Hi Hnew%list_elem_of_singleton. cbn in Hnew.
    by apply (proj1 (Forall_forall _ _)
                (next_rowid_fresh (user_id <$> user_table d)) i).
  - split; [done|]. intros Hd _. by apply follower_statement_consistent.
  - split; [done|]. intros Hd _. by apply follower_statement_consistent.
  - split; [done|]. intros Hd Hrefers.
    apply insert_message_consistent; [done|].
    destruct Hrefers as [u Hu]; [by eexists|].
    destruct (viewer_user d s V u Hs Hu) as [Hin <-].
    apply list_elem_of_fmap. by exists u.
Qed.

(** X25: [before_request] never fails and never changes the store or the
    session; whatever [g.user] held before, afterwards it is a user row of
    the store whose id is the session's user id, and it is empty exactly
    when the session has no user id or no user row carries that id. *)
Theorem before_request_sets_viewer (w : world) :
  (before_request w).1 = Done () ∧
  db (before_request w).2 = db w ∧ sess (before_request w).2 = sess w ∧
  (∀ u : user, g_user (before_request w).2 = Some u →
     u ∈ user_table (db w) ∧ session_user_id (sess w) = Some (user_id u)) ∧
  (g_user (before_request w).2 = None ↔
   session_user_id (sess w) = None ∨
   ∃ V : Z, session_user_id (sess w) = Some V ∧ V ∉ user_id <$> user_table (db w)).
Proof.
  unfold before_request, query_db_one, bind, set_g_user, session_has_user_id,
    session_get_user_id, query_db, ret.
  destruct w as [d [[V|] fl] gu tr]; cbn;
    [|split_and!; try done; split; [by left | done]].
  split_and!; try done.
  - intros u Hu. apply head_filter_elem in Hu as [Hu Hid].
    apply Z.eqb_eq in Hid. by subst.
  - split.
    + intros Hnone. right. exists V. split; [done|].
      intros Hin. apply list_elem_of_fmap in Hin as (u & -> & Hu).
      assert (In u (List.filter (λ u0, user_id u0 =? user_id u) (user_table d)))
        as Hf by (apply filter_In; split;
                  [by apply list_elem_of_In | apply Z.eqb_refl]).
      by destruct (List.filter _ (user_table d)).
    + intros [Hnone|(V' & HV' & Hnot)]; [done|]. injection HV' as <-.
      destruct (List.filter _ (user_table d)) as [|u us] eqn:Hf; [done|].
      exfalso. apply Hnot.
      assert (In u (List.filter (λ u0, user_id u0 =? V) (user_table d))) as Hu
        by (rewrite Hf; by left).
      apply filter_In in Hu as [Hu Hid]. apply Z.eqb_eq in Hid. subst V.
      apply list_elem_of_fmap. exists u. by rewrite list_elem_of_In.
Qed.
End routes.

(** ** The views on the sample store *)

Section examples.
#[local] Existing Instance merge_sort_engine.
#[local] Existing Instance plain_werkzeug.

(** Alice sees Bob's unflagged message, then her own; neither the flagged
    message nor the one without an author row. *)
Example alice_home_timeline :
  fst <$> response_messages (serve (timeline get_request) sample_db alice_session).1 =
  [Message 2 2 "hi alice" 200 0; Message 1 1 "hello" 100 0].
Proof. reflexivity. Qed.

Example alice_views_bob :
  (serve (user_timeline "bob" get_request) sample_db alice_session).1 =
  RenderTimeline [(Message 2 2 "hi alice" 200 0, bob)] (Some true) (Some bob).
Proof. reflexivity. Qed.

Example alice_posts :
  message_table
    (db (serve (add_message (Request POST {[ "text" := "more" ]} None 1234))
           sample_db alice_session).2) =
  message_table sample_db ++ [Message 5 1 "more" 1234 0].
Proof. reflexivity. Qed.

Example post_without_text_field :
  (serve (add_message (Request POST ∅ None 1234)) sample_db alice_session).1 =
  Unhandled (BadRequestKeyError "text").
Proof. reflexivity. Qed.

Example alice_logs_in :
  (serve (login login_post) sample_db anonymous).1 = Redirect EpTimeline ∧
  session_user_id (sess (serve (login login_post) sample_db anonymous).2) = Some 1.
Proof. split; reflexivity. Qed.

Example alice_mistypes :
  (serve (login (Request POST {[ "username" := "alice"; "password" := "wrong" ]}
                   None 1000)) sample_db anonymous).1 =
  RenderLogin (Some "Invalid password").
Proof. reflexivity. Qed.

Example follow_needs_login :
  (serve (follow_user "bob") sample_db anonymous).1 = Abort 401.
Proof. reflexivity. Qed.

Example follow_unknown_user :
  (serve (follow_user "nobody") sample_db alice_session).1 = Abort 404.
Proof. reflexivity. Qed.

Example second_page_of_crowded :
  message_id <$> (fst <$> response_messages
    (serve (public_timeline (page_request 1)) crowded_db anonymous).1) =
  [5; 4; 3; 2; 1].
Proof. reflexivity. Qed.
End examples.

(** ** The theorems at concrete states *)

Section witnesses.
#[local] Existing Instance merge_sort_engine.
#[local] Existing Instance plain_werkzeug.

Lemma timelines_join_author_witness :
  Forall (λ u, user_id u ≠ 7) (user_table sample_db) ∧
  Message 4 7 "orphan" 400 0 ∉
    (fst <$> response_messages
       (serve (public_timeline get_request) sample_db alice_session).1).
Proof.
  split.
  - by repeat constructor.
  - destruct (timelines_join_author "bob" get_request sample_db alice_session)
      as [_ Hnone].
    destruct (Hnone (Message 4 7 "orphan" 400 0)) as (_ & Hpublic & _);
      [by repeat constructor | exact Hpublic].
Defined.

Lemma anonymous_home_redirects_to_public_witness :
  viewer sample_db anonymous = None ∧
  (serve (timeline get_request) sample_db anonymous).1 =
  Redirect EpPublicTimeline.
Proof.
  split; [reflexivity|].
  apply (anonymous_home_redirects_to_public get_request sample_db anonymous).
  reflexivity.
Defined.

Lemma authenticated_login_register_redirect_witness :
  is_Some (viewer sample_db alice_session) ∧
  (serve (login login_post) sample_db alice_session).1 = Redirect EpTimeline.
Proof.
  assert (is_Some (viewer sample_db alice_session)) as Hv by (by exists alice).
  split; [exact Hv|].
  apply (authenticated_login_register_redirect login_post sample_db
           alice_session Hv).
Defined.

Lemma empty_message_silently_dropped_witness :
  is_Some (session_user_id alice_session) ∧
  req_form empty_post !! "text" = Some "" ∧
  db (serve (add_message empty_post) sample_db alice_session).2 = sample_db.
Proof.
  assert (is_Some (session_user_id alice_session)) as Hs by (by exists 1).
  assert (req_form empty_post !! "text" = Some "") as Hf by reflexivity.
  split_and!; [exact Hs | exact Hf |].
  apply (empty_message_silently_dropped empty_post sample_db alice_session Hs Hf).
Defined.



Lemma follow_then_is_following_witness :
  is_following 2 1 sample_db = false ∧ remove_follow 2 1 sample_db = sample_db.
Proof.
  assert (is_following 2 1 sample_db = false) as Hnot by reflexivity.
  split; [exact Hnot|].
  destruct (follow_then_is_following 2 1 sample_db) as (_ & _ & Hnoop & _).
  exact (Hnoop Hnot).
Defined.

Lemma create_user_then_lookup_then_conflict_witness :
  valid_registration register_post "carol" "c@x.com" "pw3" ∧
  viewer sample_db anonymous = None ∧
  Forall (λ u, username u ≠ "carol") (user_table sample_db) ∧
  (serve (register register_post) sample_db anonymous).1 = Redirect EpLogin.
Proof.
  assert (valid_registration register_post "carol" "c@x.com" "pw3") as Hvalid
    by (by repeat split).
  assert (viewer sample_db anonymous = None) as Hv by reflexivity.
  assert (Forall (λ u, username u ≠ "carol") (user_table sample_db)) as Hfresh
    by (by repeat constructor).
  split_and!; [exact Hvalid | exact Hv | exact Hfresh |].
  destruct (create_user_then_lookup_then_conflict register_post sample_db
              anonymous "carol" "c@x.com" "pw3" Hvalid Hv Hfresh) as [Hresp _].
  exact Hresp.
Defined.

Lemma public_timeline_pages_witness :
  db_consistent crowded_db ∧
  length (List.filter unflagged (message_table crowded_db)) = 35%nat ∧
  ∃ page0 page1 : list row,
    (serve (public_timeline (page_request 0)) crowded_db anonymous).1 =
    RenderTimeline page0 None None ∧
    (serve (public_timeline (page_request 1)) crowded_db anonymous).1 =
    RenderTimeline page1 None None ∧
    length page0 = 30%nat ∧ length page1 = 5%nat.
Proof.
  assert (db_consistent crowded_db) as Hd
    by (apply (bool_decide_unpack _); by vm_compute).
  assert (length (List.filter unflagged (message_table crowded_db)) = 35%nat)
    as Hlen by reflexivity.
  split_and!; [exact Hd | exact Hlen |].
  destruct (public_timeline_pages crowded_db anonymous Hd)
    as (S & _ & _ & _ & Hpages).
  destruct (Hpages Hlen (page_request 0) (page_request 1) eq_refl eq_refl)
    as (page0 & page1 & H0 & H1 & Hl0 & Hl1 & _).
  exists page0, page1. by split_and!.
Defined.

Lemma home_timeline_first_page_witness :
  db_consistent crowded_db ∧ session_user_id alice_session = Some 1 ∧
  is_Some (viewer crowded_db alice_session) ∧ page_arg get_request = 0 ∧
  ∃ S : list row,
    (serve (timeline get_request) crowded_db alice_session).1 =
    RenderTimeline (take (Z.to_nat PER_PAGE) S) None None.
Proof.
  assert (db_consistent crowded_db) as Hd
    by (apply (bool_decide_unpack _); by vm_compute).
  assert (is_Some (viewer crowded_db alice_session)) as Hv by (by exists alice).
  split_and!; [exact Hd | reflexivity | exact Hv | reflexivity |].
  destruct (home_timeline_first_page get_request crowded_db alice_session 1
              Hd eq_refl Hv eq_refl) as (S & _ & _ & Hpage & _).
  by exists S.
Defined.

(** C1 as stated fails: Alice has 35 unflagged messages of her own and
    the home timeline at page 0 leaves her oldest one out. *)
Lemma home_timeline_misses_oldest_message :
  db_consistent crowded_db ∧
  viewer crowded_db alice_session = Some alice ∧
  page_arg get_request = 0 ∧
  Message 1 1 "tick" 1 0 ∈ message_table crowded_db ∧
  home_visible crowded_db 1 (Message 1 1 "tick" 1 0) = true ∧
  Message 1 1 "tick" 1 0 ∉
    (fst <$> response_messages
       (serve (timeline get_request) crowded_db alice_session).1).
Proof.
  split_and!; try reflexivity; apply (bool_decide_unpack _); by vm_compute.
Qed.

(** C8 as stated fails twice.  On [sample_db] only three messages are
    unflagged, so page 0 should show them all, but the most recent one has
    no author row and is left out.  And for the non-negative page
    307445734561825861 the offset does not fit a signed 64-bit integer:
    the request ends with OverflowError and no page is returned, also on a
    store that keeps the invariants. *)
Lemma public_timeline_page_missing_or_failing :
  (req_page (page_request 0) = Some 0 ∧
   Message 4 7 "orphan" 400 0 ∈ message_table sample_db ∧
   unflagged (Message 4 7 "orphan" 400 0) = true ∧
   (length (List.filter unflagged (message_table sample_db)) ≤ 30)%nat ∧
   Message 4 7 "orphan" 400 0 ∉
     (fst <$> response_messages
        (serve (public_timeline (page_request 0)) sample_db anonymous).1)) ∧
  (db_consistent crowded_db ∧ 0 ≤ 307445734561825861 ∧
   (serve (public_timeline (page_request 307445734561825861))
      crowded_db anonymous).1 = Unhandled OverflowError).
Proof.
  split; split_and!; try reflexivity; try (by vm_compute);
    apply (bool_decide_unpack _); by vm_compute.
Qed.
End witnesses.


(** ** The further theorems at concrete states *)

Section further_witnesses.
#[local] Existing Instance merge_sort_engine.
#[local] Existing Instance plain_werkzeug.

Lemma follow_requires_login_witness :
  viewer sample_db anonymous = None ∧
  (serve (follow_user "bob") sample_db anonymous).1 = Abort 401.
Proof.
  split; [reflexivity|].
  destruct (follow_requires_login "bob" sample_db anonymous eq_refl) as [Hresp _].
  exact Hresp.
Defined.

Lemma follow_unknown_user_not_found_witness :
  is_Some (viewer sample_db alice_session) ∧
  lookup_user_id "nobody" sample_db = None ∧
  (serve (follow_user "nobody") sample_db alice_session).1 = Abort 404.
Proof.
  assert (is_Some (viewer sample_db alice_session)) as Hv by (by exists alice).
  split_and!; [exact Hv | reflexivity |].
  destruct (follow_unknown_user_not_found "nobody" sample_db alice_session
              Hv eq_refl) as [Hresp _].
  exact Hresp.
Defined.

Lemma follow_edge_frame_witness :
  (2 ≠ 1 ∨ 1 ≠ 2) ∧
  is_following 2 1 (add_follow 1 2 sample_db) = is_following 2 1 sample_db.
Proof.
  assert (2 ≠ 1 ∨ 1 ≠ 2) as Hne by (left; lia).
  split; [exact Hne|].
  destruct (follow_edge_frame 1 2 2 1 sample_db Hne) as [Hadd _].
  exact Hadd.
Defined.

Lemma follow_inserts_unfollow_clears_witness :
  session_user_id alice_session = Some 1 ∧
  is_Some (viewer sample_db alice_session) ∧
  lookup_user_id "bob" sample_db = Some 2 ∧
  edge_count 1 2 (db (serve (follow_user "bob") sample_db alice_session).2) =
  S (edge_count 1 2 sample_db).
Proof.
  assert (is_Some (viewer sample_db alice_session)) as Hv by (by exists alice).
  split_and!; [reflexivity | exact Hv | reflexivity |].
  destruct (follow_inserts_unfollow_clears "bob" sample_db alice_session 1 2
              eq_refl Hv eq_refl) as [Hgrow _].
  exact Hgrow.
Defined.

Lemma add_message_rejects_witness :
  session_user_id anonymous = None ∧
  (serve (add_message text_post) sample_db anonymous).1 = Abort 401 ∧
  is_Some (session_user_id alice_session) ∧
  req_form (Request POST ∅ None 1234) !! "text" = None ∧
  (serve (add_message (Request POST ∅ None 1234)) sample_db alice_session).1 =
  Unhandled (BadRequestKeyError "text").
Proof.
  assert (is_Some (session_user_id alice_session)) as Hs by (by exists 1).
  split_and!; [reflexivity | | exact Hs | reflexivity |].
  - destruct (add_message_rejects text_post sample_db anonymous) as [Hno _].
    destruct (Hno eq_refl) as [Hresp _]. exact Hresp.
  - destruct (add_message_rejects (Request POST ∅ None 1234) sample_db
                alice_session) as [_ Hkey].
    destruct (Hkey Hs eq_refl) as [Hresp _]. exact Hresp.
Defined.

Lemma add_message_records_witness :
  session_user_id alice_session = Some 1 ∧
  req_form text_post !! "text" = Some "more" ∧ nonempty "more" = true ∧
  message_table (db (serve (add_message text_post) sample_db alice_session).2) =
  message_table sample_db ++ [posted_message sample_db 1 "more" 1234].
Proof.
  split_and!; [reflexivity..|].
  destruct (add_message_records text_post sample_db alice_session 1 "more"
              eq_refl eq_refl eq_refl) as (_ & Htable & _).
  exact Htable.
Defined.

Lemma posted_message_tops_timelines_witness :
  session_user_id alice_session = Some 1 ∧
  is_Some (viewer sample_db alice_session) ∧
  req_form text_post !! "text" = Some "more" ∧ nonempty "more" = true ∧
  Forall (λ m, pub_date m < req_time text_post) (message_table sample_db) ∧
  page_arg get_request = 0 ∧
  head (fst <$> response_messages
          (serve (public_timeline get_request)
             (db (serve (add_message text_post) sample_db alice_session).2)
             anonymous).1) =
  Some (posted_message sample_db 1 "more" (req_time text_post)).
Proof.
  assert (is_Some (viewer sample_db alice_session)) as Hv by (by exists alice).
  assert (Forall (λ m, pub_date m < req_time text_post) (message_table sample_db))
    as Hold by (repeat constructor; cbn; lia).
  split_and!; [reflexivity | exact Hv | reflexivity | reflexivity | exact Hold
              | reflexivity |].
  destruct (posted_message_tops_timelines text_post sample_db alice_session 1
              "more" eq_refl Hv eq_refl eq_refl Hold get_request anonymous
              eq_refl) as [Hpublic _].
  exact Hpublic.
Defined.

Lemma stale_session_post_is_hidden_witness :
  session_user_id stale_session = Some 9 ∧
  (9 ∉ user_id <$> user_table sample_db) ∧
  req_form text_post !! "text" = Some "more" ∧ nonempty "more" = true ∧
  (serve (add_message text_post) sample_db stale_session).1 = Redirect EpTimeline.
Proof.
  assert (9 ∉ user_id <$> user_table sample_db) as Hstale
    by (apply (bool_decide_unpack _); by vm_compute).
  split_and!; [reflexivity | exact Hstale | reflexivity | reflexivity |].
  destruct (stale_session_post_is_hidden text_post sample_db stale_session 9
              "more" eq_refl Hstale eq_refl eq_refl) as [Hresp _].
  exact Hresp.
Defined.

Lemma login_outcomes_witness :
  viewer sample_db anonymous = None ∧ req_method login_post = POST ∧
  req_form login_post !! "username" = Some "alice" ∧
  lookup_user_by_name "alice" sample_db = Some alice ∧
  req_form login_post !! "password" = Some "pw1" ∧
  check_password_hash (pw_hash alice) "pw1" = true ∧
  (serve (login login_post) sample_db anonymous).1 = Redirect EpTimeline.
Proof.
  split_and!; [reflexivity..|].
  destruct (login_outcomes login_post sample_db anonymous "alice"
              eq_refl eq_refl eq_refl) as [_ Hknown].
  destruct (Hknown alice "pw1" eq_refl eq_refl) as (_ & _ & Hgood).
  destruct (Hgood eq_refl) as [Hresp _]. exact Hresp.
Defined.

Lemma register_then_login_witness :
  valid_registration register_post "carol" "c@x.com" "pw3" ∧
  viewer sample_db anonymous = None ∧
  Forall (λ u, username u ≠ "carol") (user_table sample_db) ∧
  viewer (db (serve (register register_post) sample_db anonymous).2) anonymous =
    None ∧
  check_password_hash (generate_password_hash "pw3") "pw3" = true ∧
  (serve (login carol_login)
     (db (serve (register register_post) sample_db anonymous).2) anonymous).1 =
  Redirect EpTimeline.
Proof.
  assert (valid_registration register_post "carol" "c@x.com" "pw3") as Hvalid
    by (by repeat split).
  assert (Forall (λ u, username u ≠ "carol") (user_table sample_db)) as Hfresh
    by (by repeat constructor).
  split_and!; [exact Hvalid | reflexivity | exact Hfresh | reflexivity
              | reflexivity |].
  destruct (register_then_login register_post sample_db anonymous "carol"
              "c@x.com" "pw3" Hvalid eq_refl Hfresh carol_login anonymous "pw3"
              eq_refl eq_refl eq_refl eq_refl) as [Hgood _].
  destruct (Hgood eq_refl) as [Hresp _]. exact Hresp.
Defined.

Lemma register_rejections_witness :
  viewer sample_db anonymous = None ∧ req_method nameless_post = POST ∧
  req_form nameless_post !! "username" = Some "" ∧
  serve (register nameless_post) sample_db anonymous =
  (RenderRegister (Some "You have to enter a username"),
   request_world sample_db anonymous).
Proof.
  split_and!; [reflexivity..|].
  destruct (register_rejections nameless_post sample_db anonymous
              eq_refl eq_refl) as [Hname _].
  exact (Hname eq_refl).
Defined.

Lemma user_timeline_unknown_not_found_witness :
  lookup_user_by_name "nobody" sample_db = None ∧
  (serve (user_timeline "nobody" get_request) sample_db anonymous).1 = Abort 404.
Proof.
  split; [reflexivity|].
  destruct (user_timeline_unknown_not_found "nobody" get_request sample_db
              anonymous eq_refl) as [Hresp _].
  exact Hresp.
Defined.

Lemma user_timeline_profile_witness :
  lookup_user_by_name "bob" sample_db = Some bob ∧
  sqlite_int (page_arg get_request * PER_PAGE) = true ∧
  bob ∈ user_table sample_db ∧ username bob = "bob".
Proof.
  split_and!; [reflexivity | reflexivity | |].
  - destruct (user_timeline_profile "bob" get_request sample_db alice_session
                bob eq_refl eq_refl) as (Hin & _).
    exact Hin.
  - destruct (user_timeline_profile "bob" get_request sample_db alice_session
                bob eq_refl eq_refl) as (_ & Hname & _).
    exact Hname.
Defined.

Lemma user_timeline_pages_witness :
  db_consistent crowded_db ∧
  lookup_user_by_name "alice" crowded_db = Some alice ∧
  0 ≤ 1 ∧ 1 * 30 ≤ 2 ^ 63 - 1 ∧
  ∃ (S : list row) (followed : bool),
    (serve (user_timeline "alice" (page_request 1)) crowded_db anonymous).1 =
    RenderTimeline (take 30 (drop (Z.to_nat 1 * 30) S)) (Some followed)
      (Some alice).
Proof.
  assert (db_consistent crowded_db) as Hd
    by (apply (bool_decide_unpack _); by vm_compute).
  assert (0 ≤ 1) as Hp0 by lia.
  assert (1 * 30 ≤ 2 ^ 63 - 1) as Hfits by (by vm_compute).
  split_and!; [exact Hd | reflexivity | exact Hp0 | exact Hfits |].
  destruct (user_timeline_pages "alice" crowded_db anonymous alice Hd eq_refl)
    as (S & _ & _ & Hpage).
  destruct (Hpage (page_request 1) 1 eq_refl Hp0 Hfits) as [followed Hresp].
  by exists S, followed.
Defined.

Lemma public_timeline_page_out_of_range_witness :
  req_page (page_request 307445734561825861) = Some 307445734561825861 ∧
  2 ^ 63 - 1 < 307445734561825861 * 30 ∧
  (serve (public_timeline (page_request 307445734561825861))
     sample_db anonymous).1 = Unhandled OverflowError.
Proof.
  assert (2 ^ 63 - 1 < 307445734561825861 * 30) as Hhigh by (by vm_compute).
  split_and!; [reflexivity | exact Hhigh |].
  destruct (public_timeline_page_out_of_range (page_request 307445734561825861)
              sample_db anonymous 307445734561825861 eq_refl)
    as (_ & _ & Hfails).
  destruct (Hfails (or_intror Hhigh)) as [Hresp _]. exact Hresp.
Defined.

Lemma writes_need_session_user_witness :
  session_user_id anonymous = None ∧
  message_table (db (serve (view RAddMessage text_post) sample_db anonymous).2) =
  message_table sample_db.
Proof.
  split; [reflexivity|].
  destruct (writes_need_session_user RAddMessage text_post sample_db anonymous
              eq_refl) as [_ Hm].
  exact Hm.
Defined.

Lemma tables_change_only_by_their_route_witness :
  RAddMessage ≠ RRegister ∧
  user_table (db (serve (view RAddMessage text_post) sample_db alice_session).2) =
  user_table sample_db.
Proof.
  assert (RAddMessage ≠ RRegister) as Hr by discriminate.
  split; [exact Hr|].
  destruct (tables_change_only_by_their_route RAddMessage text_post sample_db
              alice_session) as [Hu _].
  exact (Hu Hr).
Defined.

Lemma requests_keep_invariants_witness :
  db_consistent crowded_db ∧ session_refers_to_user crowded_db alice_session ∧
  db_consistent
    (db (serve (view RAddMessage text_post) crowded_db alice_session).2).
Proof.
  assert (db_consistent crowded_db) as Hd
    by (apply (bool_decide_unpack _); by vm_compute).
  assert (session_refers_to_user crowded_db alice_session) as Hs
    by (intros _; by exists alice).
  split_and!; [exact Hd | exact Hs |].
  destruct (requests_keep_invariants RAddMessage text_post crowded_db
              alice_session) as [_ Hkeep].
  exact (Hkeep Hd Hs).
Defined.
End further_witnesses.
